(** * Ratatoskr calendar adapter: a shallow embedding of [app/calendarutil.py]

    The module mirrors timeslot records of the scheduling application onto
    events of an external calendar provider.  This development embeds

    - the derivation of the event identifier ([hashify],
      [build_timeslot_event_id]), together with an executable SHA-1;
    - the credential lookup ([build_calendar_client]);
    - the calendar life cycle ([create_calendar_for_schedule],
      [delete_calendar_for_schedule]);
    - the event synchronisation ([update_timeslot_event],
      [delete_timeslot_event]);

    as functions in a state-and-exception monad over a log of the requests
    actually executed against the provider.

    Conventions.  A Python [str] is represented by its UTF-8 encoding as a
    [string]; a string is pure ASCII exactly when every byte is below 128.
    Python dictionaries that are sent to or received from the provider are
    [JSON] objects (association lists in literal order).  Integers are [Z]. *)

From Stdlib Require Import ZArith String Ascii List Lia Bool.
From Stdlib Require Import DecimalString DecimalZ.
From stdpp Require Import gmap strings list.

Local Open Scope string_scope.
Local Open Scope list_scope.
Local Open Scope Z_scope.

(** ** Python strings *)

Module PyStr.

(** [str(n)] for an [int]: decimal digits, with a leading minus sign. *)
Definition str_of_int (n : Z) : string :=
  NilZero.string_of_int (Z.to_int n).

Definition ord (c : ascii) : Z := Z.of_N (N_of_ascii c).

Definition is_ascii_char (c : ascii) : bool := ord c <? 128.

Fixpoint is_ascii (s : string) : bool :=
  match s with
  | EmptyString => true
  | String c s' => is_ascii_char c && is_ascii s'
  end.

Fixpoint to_bytes (s : string) : list Z :=
  match s with
  | EmptyString => []
  | String c s' => ord c :: to_bytes s'
  end.

(** [bytes(s, "ascii")]: [None] stands for [UnicodeEncodeError]. *)
Definition encode_ascii (s : string) : option (list Z) :=
  if is_ascii s then Some (to_bytes s) else None.

Definition is_upper (c : ascii) : bool := (65 <=? ord c) && (ord c <=? 90).

Definition lower_char (c : ascii) : ascii :=
  if is_upper c then ascii_of_N (N_of_ascii c + 32) else c.

(** [s.lower()] on the ASCII range; bytes of multi-byte code points are
    left as they are (the function is only applied to hex digests). *)
Fixpoint lower (s : string) : string :=
  match s with
  | EmptyString => EmptyString
  | String c s' => String (lower_char c) (lower s')
  end.

Definition is_lower_hex_char (c : ascii) : bool :=
  ((48 <=? ord c) && (ord c <=? 57)) || ((97 <=? ord c) && (ord c <=? 102)).

Fixpoint all_chars (p : ascii -> bool) (s : string) : bool :=
  match s with
  | EmptyString => true
  | String c s' => p c && all_chars p s'
  end.

End PyStr.

(** ** SHA-1 (FIPS 180-4), the function behind [hashlib.sha1] *)

Module SHA1.

Definition modulus : Z := 2 ^ 32.

Definition add32 (a b : Z) : Z := (a + b) mod modulus.

Definition rotl (n x : Z) : Z :=
  (Z.lor (Z.shiftl x n) (Z.shiftr x (32 - n))) mod modulus.

Definition not32 (x : Z) : Z := Z.lxor x (modulus - 1).

Record state := State { h0 : Z; h1 : Z; h2 : Z; h3 : Z; h4 : Z }.

Definition init : state :=
  State 0x67452301 0xEFCDAB89 0x98BADCFE 0x10325476 0xC3D2E1F0.

(** Round function and constant for round [t]. *)
Definition f (t : nat) (b c d : Z) : Z :=
  if (t <? 20)%nat then Z.lor (Z.land b c) (Z.land (not32 b) d)
  else if (t <? 40)%nat then Z.lxor (Z.lxor b c) d
  else if (t <? 60)%nat then
    Z.lor (Z.lor (Z.land b c) (Z.land b d)) (Z.land c d)
  else Z.lxor (Z.lxor b c) d.

Definition k (t : nat) : Z :=
  if (t <? 20)%nat then 0x5A827999
  else if (t <? 40)%nat then 0x6ED9EBA1
  else if (t <? 60)%nat then 0x8F1BBCDC
  else 0xCA62C1D6.

(** Big-endian encodings. *)
Fixpoint be_bytes (n : nat) (x : Z) : list Z :=
  match n with
  | O => []
  | S n' => Z.land (Z.shiftr x (8 * Z.of_nat n')) 255 :: be_bytes n' x
  end.

Definition be_word (b3 b2 b1 b0 : Z) : Z :=
  Z.lor (Z.lor (Z.shiftl b3 24) (Z.shiftl b2 16)) (Z.lor (Z.shiftl b1 8) b0).

(** Padding: a one bit, zeros up to 56 mod 64, the bit length on 8 bytes. *)
Definition pad (msg : list Z) : list Z :=
  let n := Z.of_nat (length msg) in
  msg ++ 128 :: repeat 0 (Z.to_nat ((55 - n) mod 64)) ++ be_bytes 8 (8 * n).

Fixpoint words (fuel : nat) (bs : list Z) : list Z :=
  match fuel, bs with
  | S fuel', b3 :: b2 :: b1 :: b0 :: rest =>
      be_word b3 b2 b1 b0 :: words fuel' rest
  | _, _ => []
  end.

Fixpoint blocks (fuel : nat) (ws : list Z) : list (list Z) :=
  match fuel with
  | O => []
  | S fuel' =>
      match ws with
      | [] => []
      | _ => take 16 ws :: blocks fuel' (drop 16 ws)
      end
  end.

(** Message schedule, most recent word first: [rev_w] holds
    [w(t-1), w(t-2), ...]. *)
Fixpoint expand (n : nat) (rev_w : list Z) : list Z :=
  match n with
  | O => rev_w
  | S n' =>
      let w := rotl 1 (Z.lxor (Z.lxor (nth 2 rev_w 0) (nth 7 rev_w 0))
                              (Z.lxor (nth 13 rev_w 0) (nth 15 rev_w 0))) in
      expand n' (w :: rev_w)
  end.

Definition schedule (block : list Z) : list Z :=
  rev (expand 64 (rev block)).

Definition round (s : state) (tw : nat * Z) : state :=
  let '(t, w) := tw in
  let temp :=
    add32 (add32 (add32 (add32 (rotl 5 (h0 s)) (f t (h1 s) (h2 s) (h3 s)))
                        (h4 s)) (k t)) w in
  State temp (h0 s) (rotl 30 (h1 s)) (h2 s) (h3 s).

Definition compress (h : state) (block : list Z) : state :=
  let w := schedule block in
  let s := fold_left round (combine (seq 0 80) w) h in
  State (add32 (h0 h) (h0 s)) (add32 (h1 h) (h1 s)) (add32 (h2 h) (h2 s))
        (add32 (h3 h) (h3 s)) (add32 (h4 h) (h4 s)).

Definition sha1 (msg : list Z) : state :=
  let p := pad msg in
  fold_left compress (blocks (length p) (words (length p) p)) init.

Definition hex_digit (n : Z) : ascii :=
  match n with
  | 0 => "0" | 1 => "1" | 2 => "2" | 3 => "3" | 4 => "4" | 5 => "5"
  | 6 => "6" | 7 => "7" | 8 => "8" | 9 => "9" | 10 => "a" | 11 => "b"
  | 12 => "c" | 13 => "d" | 14 => "e" | _ => "f"
  end%char.

Definition nibble (i : Z) (w : Z) : Z := Z.land (Z.shiftr w (4 * i)) 15.

Definition hex8 (w : Z) (rest : string) : string :=
  String (hex_digit (nibble 7 w)) (String (hex_digit (nibble 6 w))
  (String (hex_digit (nibble 5 w)) (String (hex_digit (nibble 4 w))
  (String (hex_digit (nibble 3 w)) (String (hex_digit (nibble 2 w))
  (String (hex_digit (nibble 1 w)) (String (hex_digit (nibble 0 w))
  rest))))))).

(** [.hexdigest()]: 40 hexadecimal digits, most significant first. *)
Definition hexdigest (s : state) : string :=
  hex8 (h0 s) (hex8 (h1 s) (hex8 (h2 s) (hex8 (h3 s)
    (hex8 (h4 s) EmptyString)))).

End SHA1.

(** ** JSON values: request bodies and provider responses *)

#[local] Set Warnings "-register-all".

Inductive JSON : Type :=
| JNull
| JBool (b : bool)
| JInt (n : Z)
| JStr (s : string)
| JList (l : list JSON)
| JDict (d : list (string * JSON)).

Fixpoint assoc_get (k : string) (d : list (string * JSON)) : option JSON :=
  match d with
  | [] => None
  | (k', v) :: d' => if String.eqb k' k then Some v else assoc_get k d'
  end.

(** [d.get(k)]: the value under [k] when [j] is an object that has it. *)
Definition dict_get (k : string) (j : JSON) : option JSON :=
  match j with
  | JDict d => assoc_get k d
  | _ => None
  end.

(** ** Exceptions and outcomes *)

Inductive Exn : Type :=
| HttpError (status_code : Z)
| DoesNotExist
| MultipleObjectsReturned
| KeyError (key : string)
| TypeError
| ValueError
| UnicodeEncodeError
| OverflowError
| TransportError (msg : string).

Inductive Outcome (A : Type) : Type :=
| Return (a : A)
| Raise (e : Exn).
Arguments Return {A} a.
Arguments Raise {A} e.

Definition obind {A B} (o : Outcome A) (k : A -> Outcome B) : Outcome B :=
  match o with
  | Return a => k a
  | Raise e => Raise e
  end.

(** [j[k]]: [KeyError] on a missing key, [TypeError] off an object. *)
Definition subscript (j : JSON) (k : string) : Outcome JSON :=
  match j with
  | JDict d =>
      match assoc_get k d with
      | Some v => Return v
      | None => Raise (KeyError k)
      end
  | _ => Raise TypeError
  end.

(** ** Dates and times *)

Record tzinfo := { tz_zone : string; tz_utcoffset : Z (* seconds east of UTC *) }.

Record datetime := {
  year : Z; month : Z; day : Z;
  hour : Z; minute : Z; second : Z; microsecond : Z;
  dt_tzinfo : option tzinfo
}.

Module Datetime.

(** [dt.replace(tzinfo=tz)]: same wall-clock fields, other zone. *)
Definition replace_tzinfo (dt : datetime) (tz : option tzinfo) : datetime :=
  {| year := year dt; month := month dt; day := day dt;
     hour := hour dt; minute := minute dt; second := second dt;
     microsecond := microsecond dt; dt_tzinfo := tz |}.

(** [pytz.timezone(zone).localize(dt)]: attaches the zone at the offset the
    zone table gives for the wall-clock time; refuses an aware value. *)
Definition localize (utcoffset : string -> datetime -> Z)
    (zone : string) (dt : datetime) : Outcome datetime :=
  match dt_tzinfo dt with
  | Some _ => Raise ValueError
  | None =>
      Return (replace_tzinfo dt
                (Some {| tz_zone := zone; tz_utcoffset := utcoffset zone dt |}))
  end.

Fixpoint zeros (n : nat) : string :=
  match n with
  | O => EmptyString
  | S n' => String "0" (zeros n')
  end.

(** ["%0wd" % n] for a non-negative [n]. *)
Definition fmt_d (w : nat) (n : Z) : string :=
  let s := PyStr.str_of_int n in
  zeros (w - String.length s) +:+ s.

Definition format_offset (tz : option tzinfo) : string :=
  match tz with
  | None => EmptyString
  | Some z =>
      let off := tz_utcoffset z in
      let sign := if off <? 0 then "-" else "+" in
      let a := Z.abs off in
      let hh := a / 3600 in
      let mm := (a mod 3600) / 60 in
      let ss := a mod 60 in
      sign +:+ fmt_d 2 hh +:+ ":" +:+ fmt_d 2 mm
        +:+ (if ss =? 0 then EmptyString else ":" +:+ fmt_d 2 ss)
  end.

(** [dt.isoformat()]. *)
Definition isoformat (dt : datetime) : string :=
  fmt_d 4 (year dt) +:+ "-" +:+ fmt_d 2 (month dt) +:+ "-" +:+ fmt_d 2 (day dt)
    +:+ "T" +:+ fmt_d 2 (hour dt) +:+ ":" +:+ fmt_d 2 (minute dt) +:+ ":"
    +:+ fmt_d 2 (second dt)
    +:+ (if microsecond dt =? 0 then EmptyString
        else "." +:+ fmt_d 6 (microsecond dt))
    +:+ format_offset (dt_tzinfo dt).

(** Days since 1970-01-01 of a proleptic Gregorian date, and back. *)
Definition days_from_civil (y m d : Z) : Z :=
  let y' := if m <=? 2 then y - 1 else y in
  let era := y' / 400 in
  let yoe := y' - era * 400 in
  let doy := (153 * (if 2 <? m then m - 3 else m + 9) + 2) / 5 + d - 1 in
  let doe := yoe * 365 + yoe / 4 - yoe / 100 + doy in
  era * 146097 + doe - 719468.

Definition civil_from_days (z : Z) : Z * Z * Z :=
  let z' := z + 719468 in
  let era := z' / 146097 in
  let doe := z' - era * 146097 in
  let yoe := (doe - doe / 1460 + doe / 36524 - doe / 146096) / 365 in
  let doy := doe - (365 * yoe + yoe / 4 - yoe / 100) in
  let mp := (5 * doy + 2) / 153 in
  let d := doy - (153 * mp + 2) / 5 + 1 in
  let m := if mp <? 10 then mp + 3 else mp - 9 in
  let y := yoe + era * 400 in
  (if m <=? 2 then y + 1 else y, m, d).

(** [datetime.timedelta(hours=h)], in seconds. *)
Definition timedelta_hours (h : Z) : Z := h * 3600.

(** [dt + delta]: wall-clock arithmetic that keeps [tzinfo];
    [OverflowError] outside the years 1..9999. *)
Definition add (dt : datetime) (delta : Z) : Outcome datetime :=
  let secs := hour dt * 3600 + minute dt * 60 + second dt + delta in
  let days := days_from_civil (year dt) (month dt) (day dt) + secs / 86400 in
  let sod := secs mod 86400 in
  let '(y, m, d) := civil_from_days days in
  if (1 <=? y) && (y <=? 9999) then
    Return {| year := y; month := m; day := d;
              hour := sod / 3600; minute := (sod mod 3600) / 60;
              second := sod mod 60; microsecond := microsecond dt;
              dt_tzinfo := dt_tzinfo dt |}
  else Raise OverflowError.

End Datetime.

(** ** Application records (Django models) *)

Record User := { user_pk : Z }.

Module Schedule.
Record t := {
  id : Z;
  owner : User;
  name : string;
  calendar_id : string;
  calendar_meet_data : JSON
}.
End Schedule.

Module Reservation.
Record t := { email : string; name : string; comment : string }.
End Reservation.

Module Timeslot.
Record t := {
  id : Z;
  schedule : Schedule.t;
  time_from : datetime;
  time_to : datetime;
  reservation_set : list Reservation.t
}.
End Timeslot.

(** ** The credential store (allauth) *)

Record SocialToken := {
  account_user : User;
  account_provider : string;
  token : string;
  token_secret : string
}.

Record SocialApp := {
  provider_name : string;
  client_id : string;
  secret : string
}.

Record Database := {
  social_tokens : list SocialToken;
  social_apps : list SocialApp
}.

(** [Model.objects.get(...)] over the rows that match the filter. *)
Definition objects_get {A} (rows : list A) : Outcome A :=
  match rows with
  | [] => Raise DoesNotExist
  | [row] => Return row
  | _ => Raise MultipleObjectsReturned
  end.

(** ** The provider client and its requests *)

Record Credentials := {
  cred_token : string;
  cred_refresh_token : string;
  cred_token_uri : string;
  cred_client_id : string;
  cred_client_secret : string
}.

Record Client := {
  service_name : string;
  service_version : string;
  credentials : Credentials
}.

Inductive Call : Type :=
| CalendarsInsert (body : JSON)
| CalendarsDelete (calendarId : JSON)
| EventsInsert (calendarId : JSON) (conferenceDataVersion : Z) (body : JSON)
| EventsPatch (calendarId eventId : JSON) (conferenceDataVersion : Z)
              (body : JSON)
| EventsDelete (calendarId eventId : JSON).

(** A request object, as returned by [client.events().patch(...)] and the
    like: building one talks to nobody, only [execute] does. *)
Record HttpRequest := { request_client : Client; request_call : Call }.

Definition calendars_insert (c : Client) (body : JSON) : HttpRequest :=
  {| request_client := c; request_call := CalendarsInsert body |}.
Definition calendars_delete (c : Client) (calendarId : JSON) : HttpRequest :=
  {| request_client := c; request_call := CalendarsDelete calendarId |}.
Definition events_insert (c : Client) (calendarId : JSON)
    (conferenceDataVersion : Z) (body : JSON) : HttpRequest :=
  {| request_client := c;
     request_call := EventsInsert calendarId conferenceDataVersion body |}.
Definition events_patch (c : Client) (calendarId eventId : JSON)
    (conferenceDataVersion : Z) (body : JSON) : HttpRequest :=
  {| request_client := c;
     request_call := EventsPatch calendarId eventId conferenceDataVersion body |}.
Definition events_delete (c : Client) (calendarId eventId : JSON) : HttpRequest :=
  {| request_client := c; request_call := EventsDelete calendarId eventId |}.

Definition is_patch (c : Call) : bool :=
  match c with EventsPatch _ _ _ _ => true | _ => false end.
Definition is_insert (c : Call) : bool :=
  match c with EventsInsert _ _ _ => true | _ => false end.
Definition is_event_delete (c : Call) : bool :=
  match c with EventsDelete _ _ => true | _ => false end.

(** The body a call carries, if it carries one. *)
Definition call_body (c : Call) : option JSON :=
  match c with
  | CalendarsInsert b | EventsInsert _ _ b | EventsPatch _ _ _ b => Some b
  | CalendarsDelete _ | EventsDelete _ _ => None
  end.

(** ** The world: everything outside the module

    [Externals] gathers the collaborators the module does not define: the
    calendar provider (a transition function on a provider state of any
    type), the time-zone table behind [pytz], Django's [make_aware], the
    wall clock and the source of random UUIDs (both read by position). *)

Record Externals (PState : Type) := {
  provider : HttpRequest -> PState -> Outcome JSON * PState;
  utcoffset : string -> datetime -> Z;
  make_aware : datetime -> Outcome datetime;
  clock : nat -> datetime;
  uuid_source : nat -> string
}.
Arguments provider {PState} _ _ _.
Arguments utcoffset {PState} _ _ _.
Arguments make_aware {PState} _ _.
Arguments clock {PState} _ _.
Arguments uuid_source {PState} _ _.

Record World (PState : Type) := {
  db : Database;
  provider_state : PState;
  (** the requests executed so far, oldest first, with their answers *)
  executed : list (HttpRequest * Outcome JSON);
  clock_reads : nat;
  uuid_draws : nat
}.
Arguments db {PState} _.
Arguments provider_state {PState} _.
Arguments executed {PState} _.
Arguments clock_reads {PState} _.
Arguments uuid_draws {PState} _.

(** The calls of a log, without clients and answers. *)
Definition calls_of (log : list (HttpRequest * Outcome JSON)) : list Call :=
  map (fun entry => request_call (fst entry)) log.

(** ** The monad of the module's functions: state and exceptions *)

Section Monad.
Context {PState : Type}.

Definition M (A : Type) : Type := World PState -> Outcome A * World PState.

Definition ret {A} (a : A) : M A := fun w => (Return a, w).
Definition raise {A} (e : Exn) : M A := fun w => (Raise e, w).
Definition bind {A B} (m : M A) (k : A -> M B) : M B :=
  fun w =>
    match m w with
    | (Return a, w') => k a w'
    | (Raise e, w') => (Raise e, w')
    end.
Definition lift {A} (o : Outcome A) : M A := fun w => (o, w).

(** [try: m  except <handler>]: the handler says which exceptions it
    catches ([None]: not caught, the exception propagates). *)
Definition try_except {A} (m : M A) (handler : Exn -> option (M A)) : M A :=
  fun w =>
    match m w with
    | (Return a, w') => (Return a, w')
    | (Raise e, w') =>
        match handler e with
        | Some h => h w'
        | None => (Raise e, w')
        end
    end.
End Monad.
Arguments M PState A : clear implicits.

Notation "x <- m ;; k" := (bind m (fun x => k))
  (at level 90, m at next level, right associativity).
Notation "m ;;; k" := (bind m (fun _ => k))
  (at level 90, right associativity).

(** ** app/calendarutil.py *)

Definition CALENDAR_ID_SUFFIX : string := "ratatoskr.techhigh.us".

(** A [%]-format string, already split at its [%(key)s] fields. *)
Inductive Piece : Type :=
| Lit (s : string)
| Field (key : string).

(** ["%(timeslot_id)s@%(schedule_id)s#" + CALENDAR_ID_SUFFIX] *)
Definition CALENDAR_TIMESLOT_EVENT_ID : list Piece :=
  [Field "timeslot_id"; Lit "@"; Field "schedule_id";
   Lit ("#" +:+ CALENDAR_ID_SUFFIX)].

Fixpoint int_get (k : string) (d : list (string * Z)) : option Z :=
  match d with
  | [] => None
  | (k', v) :: d' => if String.eqb k' k then Some v else int_get k d'
  end.

(** [template % mapping], every field rendered with [str]. *)
Fixpoint percent_format (template : list Piece) (mapping : list (string * Z))
    : Outcome string :=
  match template with
  | [] => Return EmptyString
  | Lit s :: rest =>
      obind (percent_format rest mapping) (fun r => Return (s +:+ r))
  | Field key :: rest =>
      match int_get key mapping with
      | Some v =>
          obind (percent_format rest mapping)
                (fun r => Return (PyStr.str_of_int v +:+ r))
      | None => Raise (KeyError key)
      end
  end.

Definition hashify (s : string) : Outcome string :=
  match PyStr.encode_ascii s with
  | Some bytes => Return (PyStr.lower (SHA1.hexdigest (SHA1.sha1 bytes)))
  | None => Raise UnicodeEncodeError
  end.

Definition build_timeslot_event_id (timeslot : Timeslot.t) : Outcome string :=
  obind (percent_format CALENDAR_TIMESLOT_EVENT_ID
           [("schedule_id", Schedule.id (Timeslot.schedule timeslot));
            ("timeslot_id", Timeslot.id timeslot)])
        hashify.

(** The dict literals of the module, as functions of what they interpolate. *)

Definition calendar_body (schedule : Schedule.t) : JSON :=
  JDict [
    ("summary", JStr ("Ratatoskr: " +:+ Schedule.name schedule));
    ("description",
       JStr "Calendar generated by Ratatoskr. Please do not delete.");
    ("timeZone", JStr "UTC");
    ("conferenceProperties",
       JDict [("allowedConferenceSolutionTypes", JList [JStr "hangoutsMeet"])])
  ].

Definition dummy_event_body (start end_ requestId : string) : JSON :=
  JDict [
    ("summary", JStr "Ratatoskr Dummy Event");
    ("location", JStr "Yggdrasil");
    ("description",
       JStr ("This event was only supposed to exist for a short time. "
             +:+ "If this event happened to stay, you are free to delete it."));
    ("start", JDict [("dateTime", JStr start)]);
    ("end", JDict [("dateTime", JStr end_)]);
    ("conferenceData",
       JDict [("createRequest", JDict [("requestId", JStr requestId)])]);
    ("attendees", JList []);
    ("reminders", JDict [("useDefault", JBool false)])
  ].

Definition attendee (r : Reservation.t) : JSON :=
  JDict [
    ("email", JStr (Reservation.email r));
    ("displayName", JStr (Reservation.name r));
    ("comment", JStr (Reservation.comment r))
  ].

Definition event_body (timeslot : Timeslot.t) (start end_ : string)
    (conf_data : JSON) (event_id : string) : JSON :=
  JDict [
    ("summary",
       JStr ("Ratatoskr: " +:+ Schedule.name (Timeslot.schedule timeslot)));
    ("location", JStr "Atop Yggdrasil");
    ("description", JStr "Event relayed to you by Ratatoskr 🐭.");
    ("start", JDict [("dateTime", JStr start)]);
    ("end", JDict [("dateTime", JStr end_)]);
    ("conferenceData", conf_data);
    ("attendees", JList (map attendee (Timeslot.reservation_set timeslot)));
    ("reminders",
       JDict [
         ("useDefault", JBool false);
         ("overrides",
            JList [
              JDict [("method", JStr "email"); ("minutes", JInt (60 * 24 * 2))];
              JDict [("method", JStr "email"); ("minutes", JInt (60 * 24))];
              JDict [("method", JStr "email"); ("minutes", JInt 10)]
            ])
       ]);
    ("id", JStr event_id)
  ].

Section CalendarUtil.
Context {PState : Type} (X : Externals PState).

(** [.execute()]: the one place where the provider is reached. *)
Definition execute (r : HttpRequest) : M PState JSON :=
  fun w =>
    let '(answer, p') := provider X r (provider_state w) in
    (answer,
     {| db := db w; provider_state := p';
        executed := executed w ++ [(r, answer)];
        clock_reads := clock_reads w; uuid_draws := uuid_draws w |}).

(** [datetime.datetime.now()] *)
Definition now : M PState datetime :=
  fun w =>
    (Return (clock X (clock_reads w)),
     {| db := db w; provider_state := provider_state w;
        executed := executed w;
        clock_reads := S (clock_reads w); uuid_draws := uuid_draws w |}).

(** [str(uuid.uuid4())] *)
Definition uuid4_str : M PState string :=
  fun w =>
    (Return (uuid_source X (uuid_draws w)),
     {| db := db w; provider_state := provider_state w;
        executed := executed w;
        clock_reads := clock_reads w; uuid_draws := S (uuid_draws w) |}).

Definition same_user (u v : User) : bool := user_pk u =? user_pk v.

Definition build_calendar_client (user : User) : M PState Client :=
  fun w =>
    (obind (objects_get
              (filter (fun t => same_user (account_user t) user
                                && String.eqb (account_provider t) "google")
                      (social_tokens (db w))))
     (fun token_ =>
     obind (objects_get
              (filter (fun a => String.eqb (provider_name a) "google")
                      (social_apps (db w))))
     (fun google_app =>
     Return {| service_name := "calendar"; service_version := "v3";
               credentials :=
                 {| cred_token := token token_;
                    cred_refresh_token := token_secret token_;
                    cred_token_uri := "https://oauth2.googleapis.com/token";
                    cred_client_id := client_id google_app;
                    cred_client_secret := secret google_app |} |})),
     w).

Definition create_calendar_for_schedule (schedule : Schedule.t)
    : M PState (JSON * JSON) :=
  client <- build_calendar_client (Schedule.owner schedule) ;;
  let calendar_body := calendar_body schedule in
  t1 <- now ;;
  start <- lift (make_aware X t1) ;;
  t2 <- now ;;
  aware2 <- lift (make_aware X t2) ;;
  end_ <- lift (Datetime.add aware2 (Datetime.timedelta_hours 2)) ;;
  requestId <- uuid4_str ;;
  let dummy_event_body :=
    dummy_event_body (Datetime.isoformat start) (Datetime.isoformat end_)
                     requestId in
  calendar <- execute (calendars_insert client calendar_body) ;;
  calendar_id <- lift (subscript calendar "id") ;;
  event <- execute (events_insert client calendar_id 1 dummy_event_body) ;;
  (* the line that reads the event's conferenceData is commented out in
     the source; what is assigned is the empty dict *)
  let conf_data := JDict [] in
  event_id <- lift (subscript event "id") ;;
  execute (events_delete client calendar_id event_id) ;;;
  ret (conf_data, calendar_id).

Definition delete_calendar_for_schedule (schedule : Schedule.t)
    : M PState unit :=
  client <- build_calendar_client (Schedule.owner schedule) ;;
  (* the request is built and dropped: the source has no [.execute()] here *)
  let _ := calendars_delete client (JStr (Schedule.calendar_id schedule)) in
  ret tt.

Definition delete_timeslot_event (timeslot : Timeslot.t) : M PState unit :=
  client <- build_calendar_client
              (Schedule.owner (Timeslot.schedule timeslot)) ;;
  eventid <- lift (build_timeslot_event_id timeslot) ;;
  try_except
    (eventId <- lift (build_timeslot_event_id timeslot) ;;
     execute (events_delete client
                (JStr (Schedule.calendar_id (Timeslot.schedule timeslot)))
                (JStr eventId)) ;;;
     ret tt)
    (fun e => (* except HttpError as e *)
       match e with
       | HttpError status_code =>
           Some (if negb (bool_decide (status_code ∈ [404; 410]))
                 then raise e
                 else ret tt)
       | _ => None
       end).

Definition update_timeslot_event (timeslot : Timeslot.t) : M PState unit :=
  client <- build_calendar_client
              (Schedule.owner (Timeslot.schedule timeslot)) ;;
  (* timeslot.reservation_set.count() == 0 *)
  if Z.of_nat (length (Timeslot.reservation_set timeslot)) =? 0 then
    delete_timeslot_event timeslot
  else
    let calendar_id := Schedule.calendar_id (Timeslot.schedule timeslot) in
    event_id <- lift (build_timeslot_event_id timeslot) ;;
    let conf_data := Schedule.calendar_meet_data (Timeslot.schedule timeslot) in
    let east := "America/New_York" in
    start_dt <- lift (Datetime.localize (utcoffset X) east
                  (Datetime.replace_tzinfo (Timeslot.time_from timeslot) None)) ;;
    let start := Datetime.isoformat start_dt in
    end_dt <- lift (Datetime.localize (utcoffset X) east
                  (Datetime.replace_tzinfo (Timeslot.time_to timeslot) None)) ;;
    let end_ := Datetime.isoformat end_dt in
    let event_body := event_body timeslot start end_ conf_data event_id in
    try_except
      (execute (events_patch client (JStr calendar_id) (JStr event_id) 1
                  event_body) ;;;
       ret tt)
      (fun e => (* except HttpError *)
         match e with
         | HttpError _ =>
             Some (execute (events_insert client (JStr calendar_id) 1
                              event_body) ;;;
                   ret tt)
         | _ => None
         end).

End CalendarUtil.

(** ** An in-memory calendar provider

    A small executable provider on which the functions can be run: calendars
    are a set of ids, events a finite map from (calendar id, event id) to
    the stored body.  It answers as the provider's interface is documented:
    404 for what never existed, 410 for an event already deleted, 409 for an
    insert at an id that was already used, 400 for ill-typed ids. *)

Module InMemory.

Record store := {
  calendars : gset string;
  events : gmap (string * string) JSON;
  trash : gset (string * string);
  issued : nat
}.

Definition fresh (prefix : string) (st : store) : string :=
  prefix +:+ PyStr.str_of_int (Z.of_nat (issued st)).

Fixpoint assoc_set (k : string) (v : JSON) (d : list (string * JSON))
    : list (string * JSON) :=
  match d with
  | [] => [(k, v)]
  | (k', v') :: d' =>
      if String.eqb k' k then (k, v) :: d' else (k', v') :: assoc_set k v d'
  end.

Definition dict_set (k : string) (v : JSON) (j : JSON) : JSON :=
  match j with
  | JDict d => JDict (assoc_set k v d)
  | _ => JDict [(k, v)]
  end.

(** Patch semantics: the fields of [patch] replace those of [old]. *)
Definition merge (old patch : JSON) : JSON :=
  match patch with
  | JDict d => fold_left (fun acc kv => dict_set (fst kv) (snd kv) acc) d old
  | _ => old
  end.

(** A create-request is answered with conference data when the caller
    asked for conference data version 1. *)
Definition resolve_conference (version : Z) (st : store) (body : JSON) : JSON :=
  match dict_get "conferenceData" body with
  | Some conf =>
      match dict_get "createRequest" conf with
      | Some _ =>
          if version =? 1 then
            dict_set "conferenceData"
              (JDict [("conferenceId", JStr (fresh "meet-" st));
                      ("conferenceSolution",
                         JDict [("name", JStr "Google Meet")])])
              body
          else body
      | None => body
      end
  | None => body
  end.

Definition bump (st : store) : store :=
  {| calendars := calendars st; events := events st; trash := trash st;
     issued := S (issued st) |}.

Definition with_events (st : store) (ev : gmap (string * string) JSON)
    : store :=
  {| calendars := calendars st; events := ev; trash := trash st;
     issued := issued st |}.

Definition step (r : HttpRequest) (st : store) : Outcome JSON * store :=
  match request_call r with
  | CalendarsInsert body =>
      let cid := fresh "cal-" st in
      (Return (dict_set "id" (JStr cid) body),
       {| calendars := {[cid]} ∪ calendars st; events := events st;
          trash := trash st; issued := S (issued st) |})
  | CalendarsDelete (JStr c) =>
      if bool_decide (c ∈ calendars st) then
        (Return JNull,
         {| calendars := calendars st ∖ {[c]}; events := events st;
            trash := trash st; issued := issued st |})
      else (Raise (HttpError 404), st)
  | EventsInsert (JStr c) version body =>
      if bool_decide (c ∈ calendars st) then
        let eid := match dict_get "id" body with
                   | Some (JStr i) => i
                   | _ => fresh "evt-" st
                   end in
        match events st !! (c, eid) with
        | Some _ => (Raise (HttpError 409), st)
        | None =>
            if bool_decide ((c, eid) ∈ trash st) then
              (Raise (HttpError 409), st)
            else
              let stored :=
                resolve_conference version st (dict_set "id" (JStr eid) body) in
              (Return stored,
               bump (with_events st (<[(c, eid) := stored]> (events st))))
        end
      else (Raise (HttpError 404), st)
  | EventsPatch (JStr c) (JStr e) version body =>
      if bool_decide (c ∈ calendars st) then
        match events st !! (c, e) with
        | Some old =>
            let stored := merge old body in
            (Return stored,
             with_events st (<[(c, e) := stored]> (events st)))
        | None => (Raise (HttpError 404), st)
        end
      else (Raise (HttpError 404), st)
  | EventsDelete (JStr c) (JStr e) =>
      if bool_decide (c ∈ calendars st) then
        match events st !! (c, e) with
        | Some _ =>
            (Return JNull,
             {| calendars := calendars st; events := delete (c, e) (events st);
                trash := {[(c, e)]} ∪ trash st; issued := issued st |})
        | None =>
            if bool_decide ((c, e) ∈ trash st)
            then (Raise (HttpError 410), st)
            else (Raise (HttpError 404), st)
        end
      else (Raise (HttpError 404), st)
  | _ => (Raise (HttpError 400), st)
  end.

(** The same provider, except that every patch is refused with [status]
    (a quota or server error, say) and changes nothing. *)
Definition step_refusing_patch (status : Z) (r : HttpRequest) (st : store)
    : Outcome JSON * store :=
  if is_patch (request_call r) then (Raise (HttpError status), st)
  else step r st.

(** A provider that is out of order: every request is answered with
    [status] and nothing changes. *)
Definition unavailable (status : Z) (r : HttpRequest) (st : store)
    : Outcome JSON * store :=
  (Raise (HttpError status), st).

Definition eastern (zone : string) (dt : datetime) : Z :=
  if String.eqb zone "America/New_York" then -18000 else 0.

Definition tick (n : nat) : datetime :=
  {| year := 2024; month := 1; day := 15; hour := 10; minute := 0;
     second := Z.of_nat n; microsecond := 0; dt_tzinfo := None |}.

Definition externals_with
    (p : HttpRequest -> store -> Outcome JSON * store) : Externals store :=
  {| provider := p;
     utcoffset := eastern;
     make_aware := Datetime.localize eastern "UTC";
     clock := tick;
     uuid_source := fun n => "request-" +:+ PyStr.str_of_int (Z.of_nat n) |}.

Definition externals : Externals store := externals_with step.

End InMemory.

(** ** Sample records *)

Module Sample.

Definition alice : User := {| user_pk := 1 |}.

Definition database : Database :=
  {| social_tokens :=
       [{| account_user := alice; account_provider := "google";
           token := "access-token"; token_secret := "refresh-token" |}];
     social_apps :=
       [{| provider_name := "google"; client_id := "client-id";
           secret := "client-secret" |}] |}.

Definition schedule : Schedule.t :=
  {| Schedule.id := 7; Schedule.owner := alice;
     Schedule.name := "Office hours"; Schedule.calendar_id := "cal-0";
     Schedule.calendar_meet_data := JDict [("conferenceId", JStr "meet-0")] |}.

Definition at_hour (h : Z) : datetime :=
  {| year := 2024; month := 3; day := 4; hour := h; minute := 30;
     second := 0; microsecond := 0;
     dt_tzinfo := Some {| tz_zone := "UTC"; tz_utcoffset := 0 |} |}.

Definition bob : Reservation.t :=
  {| Reservation.email := "bob@example.org"; Reservation.name := "Bob";
     Reservation.comment := "first visit" |}.

Definition carol : Reservation.t :=
  {| Reservation.email := "carol@example.org"; Reservation.name := "Carol";
     Reservation.comment := EmptyString |}.

Definition timeslot (reservations : list Reservation.t) : Timeslot.t :=
  {| Timeslot.id := 42; Timeslot.schedule := schedule;
     Timeslot.time_from := at_hour 14; Timeslot.time_to := at_hour 15;
     Timeslot.reservation_set := reservations |}.

(** A provider that knows the schedule's calendar and nothing else. *)
Definition blank : InMemory.store :=
  {| InMemory.calendars := {["cal-0"]}; InMemory.events := ∅;
     InMemory.trash := ∅; InMemory.issued := 1 |}.

Definition world_of (st : InMemory.store) : World InMemory.store :=
  {| db := database; provider_state := st; executed := [];
     clock_reads := 0; uuid_draws := 0 |}.

Definition world : World InMemory.store := world_of blank.

(** The provider after the timeslot, booked by Bob, was synchronised. *)
Definition synced : InMemory.store :=
  provider_state
    (snd (update_timeslot_event InMemory.externals (timeslot [bob]) world)).

Definition client : Client :=
  {| service_name := "calendar"; service_version := "v3";
     credentials :=
       {| cred_token := "access-token";
          cred_refresh_token := "refresh-token";
          cred_token_uri := "https://oauth2.googleapis.com/token";
          cred_client_id := "client-id";
          cred_client_secret := "client-secret" |} |}.

End Sample.

(** ** Vocabulary of the statements *)

(** The string that is hashed for a timeslot. *)
Definition pre_hash (timeslot_id schedule_id : Z) : string :=
  PyStr.str_of_int timeslot_id +:+ "@" +:+ PyStr.str_of_int schedule_id
    +:+ "#ratatoskr.techhigh.us".

(** The bytes handed to SHA-1 for a timeslot. *)
Definition pre_image (timeslot : Timeslot.t) : list Z :=
  PyStr.to_bytes (pre_hash (Timeslot.id timeslot)
                           (Schedule.id (Timeslot.schedule timeslot))).

Definition is_int_char (c : ascii) : bool :=
  Ascii.eqb c "-" || ((48 <=? PyStr.ord c) && (PyStr.ord c <=? 57)).

Definition word32 (x : Z) : Prop := 0 <= x < SHA1.modulus.

Definition state32 (s : SHA1.state) : Prop :=
  word32 (SHA1.h0 s) /\ word32 (SHA1.h1 s) /\ word32 (SHA1.h2 s)
  /\ word32 (SHA1.h3 s) /\ word32 (SHA1.h4 s).

(** The identifier [build_timeslot_event_id] computes (it never raises). *)
Definition derived_id (timeslot : Timeslot.t) : string :=
  PyStr.lower (SHA1.hexdigest (SHA1.sha1 (pre_image timeslot))).

(** A naive copy of [dt] placed in America/New_York. *)
Definition in_new_york {PState} (X : Externals PState) (dt : datetime)
    : datetime :=
  Datetime.replace_tzinfo dt
    (Some {| tz_zone := "America/New_York";
             tz_utcoffset :=
               utcoffset X "America/New_York"
                 (Datetime.replace_tzinfo dt None) |}).

(** The event a timeslot is mirrored to. *)
Definition sync_body {PState} (X : Externals PState) (timeslot : Timeslot.t)
    : JSON :=
  event_body timeslot
    (Datetime.isoformat (in_new_york X (Timeslot.time_from timeslot)))
    (Datetime.isoformat (in_new_york X (Timeslot.time_to timeslot)))
    (Schedule.calendar_meet_data (Timeslot.schedule timeslot))
    (derived_id timeslot).

Definition calendar_of (timeslot : Timeslot.t) : JSON :=
  JStr (Schedule.calendar_id (Timeslot.schedule timeslot)).

Definition owner_of (timeslot : Timeslot.t) : User :=
  Schedule.owner (Timeslot.schedule timeslot).

(** The world after request [r] was executed and answered [a], leaving the
    provider in state [p]. *)
Definition answered {PState} (w : World PState) (r : HttpRequest)
    (a : Outcome JSON) (p : PState) : World PState :=
  {| db := db w; provider_state := p; executed := executed w ++ [(r, a)];
     clock_reads := clock_reads w; uuid_draws := uuid_draws w |}.

(** What a delete is to return for an answer of the provider, in the words
    of the specification: not-found and gone count as success, every other
    error is raised again. *)
Definition delete_outcome (a : Outcome JSON) : Outcome unit :=
  match a with
  | Return _ => Return tt
  | Raise (HttpError status) =>
      if (status =? 404) || (status =? 410) then Return tt
      else Raise (HttpError status)
  | Raise e => Raise e
  end.

Definition unit_outcome (a : Outcome JSON) : Outcome unit :=
  match a with
  | Return _ => Return tt
  | Raise e => Raise e
  end.

(** ** Providers with faults, and further sample data *)

Module Faulty.

(** The in-memory provider, except that the calls picked by [refused] are
    answered with [status] and change nothing. *)
Definition refusing (refused : Call -> bool) (status : Z) (r : HttpRequest)
    (st : InMemory.store) : Outcome JSON * InMemory.store :=
  if refused (request_call r) then (Raise (HttpError status), st)
  else InMemory.step r st.

(** A provider that answers every request with an empty object. *)
Definition hollow (r : HttpRequest) (st : InMemory.store)
    : Outcome JSON * InMemory.store :=
  (Return (JDict []), st).

(** A provider that cannot be reached: every request fails below HTTP. *)
Definition offline (r : HttpRequest) (st : InMemory.store)
    : Outcome JSON * InMemory.store :=
  (Raise (TransportError "connection refused"), st).

(** A clock that stands in the last hour of the year 9999. *)
Definition last_hour (n : nat) : datetime :=
  {| year := 9999; month := 12; day := 31; hour := 23; minute := 0;
     second := 0; microsecond := 0; dt_tzinfo := None |}.

Definition externals_at (clock : nat -> datetime) : Externals InMemory.store :=
  {| provider := InMemory.step;
     utcoffset := InMemory.eastern;
     make_aware := Datetime.localize InMemory.eastern "UTC";
     clock := clock;
     uuid_source := fun n => "request-" +:+ PyStr.str_of_int (Z.of_nat n) |}.

(** A credential store in which nobody has linked an account. *)
Definition unlinked : Database :=
  {| social_tokens := [];
     social_apps :=
       [{| provider_name := "google"; client_id := "client-id";
           secret := "client-secret" |}] |}.

Definition world_unlinked : World InMemory.store :=
  {| db := unlinked; provider_state := Sample.blank; executed := [];
     clock_reads := 0; uuid_draws := 0 |}.

(** The ids the blank provider would hand to the next calendar and to the
    placeholder event in it are taken already. *)
Definition occupied : InMemory.store :=
  {| InMemory.calendars := {["cal-0"]}; InMemory.events := ∅;
     InMemory.trash := {[("cal-1", "evt-2")]}; InMemory.issued := 1 |}.

(** A second timeslot of the sample schedule, booked by Carol. *)
Definition other_timeslot : Timeslot.t :=
  {| Timeslot.id := 43; Timeslot.schedule := Sample.schedule;
     Timeslot.time_from := Sample.at_hour 16;
     Timeslot.time_to := Sample.at_hour 17;
     Timeslot.reservation_set := [Sample.carol] |}.

End Faulty.

(** The characters the provider admits in an event id: base32hex, that is
    the digits and the letters a to v. *)
Definition is_base32hex_char (c : ascii) : bool :=
  ((48 <=? PyStr.ord c) && (PyStr.ord c <=? 57))
  || ((97 <=? PyStr.ord c) && (PyStr.ord c <=? 118)).

(** The timeslot with other zones attached to its two times. *)
Definition with_zones (timeslot : Timeslot.t) (zone_from zone_to : option tzinfo)
    : Timeslot.t :=
  {| Timeslot.id := Timeslot.id timeslot;
     Timeslot.schedule := Timeslot.schedule timeslot;
     Timeslot.time_from :=
       Datetime.replace_tzinfo (Timeslot.time_from timeslot) zone_from;
     Timeslot.time_to :=
       Datetime.replace_tzinfo (Timeslot.time_to timeslot) zone_to;
     Timeslot.reservation_set := Timeslot.reservation_set timeslot |}.

(** The placeholder event [create_calendar_for_schedule] builds in world [w],
    given the two aware clock readings. *)
Definition placeholder_body {PState} (X : Externals PState) (w : World PState)
    (start end_ : datetime) : JSON :=
  dummy_event_body (Datetime.isoformat start) (Datetime.isoformat end_)
    (uuid_source X (uuid_draws w)).

(** The identifier of the timeslot with the pair of ids [p] (timeslot id,
    schedule id). *)
Definition pair_id (p : Z * Z) : string :=
  PyStr.lower
    (SHA1.hexdigest (SHA1.sha1 (PyStr.to_bytes (pre_hash (fst p) (snd p))))).

(** The pairs (timeslot id, schedule id) with ids from 0 below [n] and
    below [m]. *)
Definition sample_pairs (n m : nat) : list (Z * Z) :=
  list_prod (map Z.of_nat (seq 0 n)) (map Z.of_nat (seq 0 m)).

(** No string occurs twice in [l]. *)
Fixpoint distinct (l : list string) : bool :=
  match l with
  | [] => true
  | x :: l' => negb (existsb (String.eqb x) l') && distinct l'
  end.

(** * Test vectors *)

Example sha1_abc :
  SHA1.hexdigest (SHA1.sha1 (PyStr.to_bytes "abc"))
  = "a9993e364706816aba3e25717850c26c9cd0d89d".
Proof. vm_compute. reflexivity. Qed.

Example sha1_two_blocks :
  SHA1.hexdigest (SHA1.sha1 (PyStr.to_bytes
    "abcdbcdecdefdefgefghfghighijhijkijkljklmklmnlmnomnopnopq"))
  = "84983e441c3bd26ebaae4aa1f95129e5e54670f1".
Proof. vm_compute. reflexivity. Qed.

Example sha1_empty :
  SHA1.hexdigest (SHA1.sha1 []) = "da39a3ee5e6b4b0d3255bfef95601890afd80709".
Proof. vm_compute. reflexivity. Qed.

Example sha1_padding_boundaries :
  SHA1.hexdigest (SHA1.sha1 (repeat 97 55))
  = "c1c8bbdc22796e28c0e15163d20899b65621d65a"
  /\ SHA1.hexdigest (SHA1.sha1 (repeat 97 64))
     = "0098ba824b5c16427bd7a1122a5a442a25ec644d".
Proof. vm_compute. split; reflexivity. Qed.

Example event_id_negative_id :
  build_timeslot_event_id
    {| Timeslot.id := -12;
       Timeslot.schedule :=
         {| Schedule.id := 1048576; Schedule.owner := {| user_pk := 1 |};
            Schedule.name := EmptyString; Schedule.calendar_id := EmptyString;
            Schedule.calendar_meet_data := JNull |};
       Timeslot.time_from := InMemory.tick 0;
       Timeslot.time_to := InMemory.tick 1;
       Timeslot.reservation_set := [] |}
  = Return "226e623407ea53a9deeafa379e6252578987cb8e".
Proof. vm_compute. reflexivity. Qed.

Example str_of_int_samples :
  PyStr.str_of_int 42 = "42" /\ PyStr.str_of_int 0 = "0"
  /\ PyStr.str_of_int (-3) = "-3".
Proof. vm_compute. repeat split. Qed.

Example isoformat_sample :
  obind (Datetime.localize (fun _ _ => -18000) "America/New_York"
           {| year := 2024; month := 2; day := 28; hour := 23; minute := 5;
              second := 0; microsecond := 0; dt_tzinfo := None |})
        (fun dt => obind (Datetime.add dt (Datetime.timedelta_hours 2))
                     (fun dt' => Return (Datetime.isoformat dt')))
  = Return "2024-02-29T01:05:00-05:00".
Proof. vm_compute. reflexivity. Qed.

(** * Properties of the identifier derivation *)

Section Strings.

Lemma all_chars_app p (a b : string) :
  PyStr.all_chars p (a +:+ b)
  = PyStr.all_chars p a && PyStr.all_chars p b.
Proof.
  induction a as [|c a IH]; simpl; [reflexivity|].
  rewrite IH. apply andb_assoc.
Qed.

Lemma all_chars_impl (p q : ascii -> bool) (s : string) :
  (forall c, p c = true -> q c = true) ->
  PyStr.all_chars p s = true -> PyStr.all_chars q s = true.
Proof.
  intros Hpq. induction s as [|c s IH]; simpl; [reflexivity|].
  intros [Hc Hs]%andb_true_iff. rewrite (Hpq _ Hc). simpl. auto.
Qed.

Lemma is_ascii_all_chars (s : string) :
  PyStr.is_ascii s = PyStr.all_chars PyStr.is_ascii_char s.
Proof. induction s as [|c s IH]; simpl; congruence. Qed.

Lemma uint_digits (d : Decimal.uint) :
  PyStr.all_chars is_int_char (NilEmpty.string_of_uint d) = true.
Proof. induction d; simpl; auto. Qed.

Lemma str_of_int_chars (n : Z) :
  PyStr.all_chars is_int_char (PyStr.str_of_int n) = true.
Proof.
  unfold PyStr.str_of_int.
  destruct (Z.to_int n) as [d|d]; simpl;
    destruct d; simpl; auto using uint_digits.
Qed.

Lemma int_char_is_ascii (c : ascii) :
  is_int_char c = true -> PyStr.is_ascii_char c = true.
Proof.
  unfold is_int_char, PyStr.is_ascii_char.
  intros [H|H]%orb_true_iff.
  - apply Ascii.eqb_eq in H. subst c. reflexivity.
  - apply andb_true_iff in H. lia.
Qed.

Lemma to_int_not_nil (n : Z) :
  Z.to_int n <> Decimal.Pos Decimal.Nil /\ Z.to_int n <> Decimal.Neg Decimal.Nil.
Proof.
  destruct n as [|p|p]; simpl; split; try discriminate;
    intros [= H]; exact (DecimalPos.Unsigned.to_uint_nonnil p H).
Qed.

Lemma str_of_int_inj (m n : Z) :
  PyStr.str_of_int m = PyStr.str_of_int n -> m = n.
Proof.
  unfold PyStr.str_of_int. intros H.
  apply DecimalZ.to_int_inj.
  destruct (to_int_not_nil m) as [Hm1 Hm2].
  destruct (to_int_not_nil n) as [Hn1 Hn2].
  pose proof (NilZero.isi _ Hm1 Hm2) as Em.
  pose proof (NilZero.isi _ Hn1 Hn2) as En.
  rewrite H in Em. congruence.
Qed.

(** A separator that occurs in neither prefix cuts in one way only. *)
Lemma split_at_separator p (x : ascii) (a a' b b' : string) :
  p x = false ->
  PyStr.all_chars p a = true -> PyStr.all_chars p a' = true ->
  a +:+ String x b = a' +:+ String x b' -> a = a' /\ b = b'.
Proof.
  intros Hx. revert a'.
  induction a as [|c a IH]; intros [|c' a']; simpl; intros Ha Ha' E.
  - injection E as ->. auto.
  - injection E as <- _. apply andb_true_iff in Ha'. destruct Ha'. congruence.
  - injection E as -> _. apply andb_true_iff in Ha. destruct Ha. congruence.
  - injection E as -> E.
    apply andb_true_iff in Ha as [_ Ha]. apply andb_true_iff in Ha' as [_ Ha'].
    destruct (IH a' Ha Ha' E) as [-> ->]. auto.
Qed.

Lemma pre_hash_inj (t1 s1 t2 s2 : Z) :
  pre_hash t1 s1 = pre_hash t2 s2 -> t1 = t2 /\ s1 = s2.
Proof.
  unfold pre_hash. intros E.
  apply (split_at_separator is_int_char "@") in E;
    [|reflexivity|apply str_of_int_chars..].
  destruct E as [Et E].
  apply (split_at_separator is_int_char "#") in E;
    [|reflexivity|apply str_of_int_chars..].
  destruct E as [Es _].
  split; apply str_of_int_inj; assumption.
Qed.

Lemma pre_hash_is_ascii (t s : Z) : PyStr.is_ascii (pre_hash t s) = true.
Proof.
  unfold pre_hash. rewrite is_ascii_all_chars, !all_chars_app.
  rewrite !(all_chars_impl _ _ _ int_char_is_ascii (str_of_int_chars _)).
  reflexivity.
Qed.

Lemma ord_inj (c c' : ascii) : PyStr.ord c = PyStr.ord c' -> c = c'.
Proof.
  unfold PyStr.ord. intros H. apply N2Z.inj in H.
  rewrite <- (ascii_N_embedding c), <- (ascii_N_embedding c'). congruence.
Qed.

Lemma to_bytes_inj (s s' : string) :
  PyStr.to_bytes s = PyStr.to_bytes s' -> s = s'.
Proof.
  revert s'. induction s as [|c s IH]; intros [|c' s']; simpl;
    try discriminate; [reflexivity|].
  intros [= Hc Hs]. f_equal; [apply ord_inj, Hc | apply IH, Hs].
Qed.

Lemma Return_inj {A} (a b : A) : Return a = Return b -> a = b.
Proof. intros [= ->]. reflexivity. Qed.

Lemma percent_format_event_id (t s : Z) :
  percent_format CALENDAR_TIMESLOT_EVENT_ID
    [("schedule_id", s); ("timeslot_id", t)] = Return (pre_hash t s).
Proof. reflexivity. Qed.

Lemma build_timeslot_event_id_eq (timeslot : Timeslot.t) :
  build_timeslot_event_id timeslot
  = Return (PyStr.lower (SHA1.hexdigest (SHA1.sha1 (pre_image timeslot)))).
Proof.
  unfold build_timeslot_event_id. rewrite percent_format_event_id.
  unfold obind, hashify, PyStr.encode_ascii.
  rewrite pre_hash_is_ascii. reflexivity.
Qed.

End Strings.

Section Digest.

Lemma nibble_range (i w : Z) : 0 <= SHA1.nibble i w <= 15.
Proof.
  assert (SHA1.nibble i w = Z.shiftr w (4 * i) mod 16) as ->.
  { unfold SHA1.nibble. change 15 with (Z.ones 4).
    rewrite Z.land_ones by lia. reflexivity. }
  pose proof (Z.mod_pos_bound (Z.shiftr w (4 * i)) 16 eq_refl). lia.
Qed.

Lemma nibble_div (i w : Z) :
  0 <= i -> SHA1.nibble i w = (w / 2 ^ (4 * i)) mod 16.
Proof.
  intros Hi. unfold SHA1.nibble. change 15 with (Z.ones 4).
  rewrite Z.land_ones, Z.shiftr_div_pow2 by lia. reflexivity.
Qed.

Lemma sixteen_cases (n : Z) (P : Z -> Prop) :
  0 <= n <= 15 ->
  P 0 -> P 1 -> P 2 -> P 3 -> P 4 -> P 5 -> P 6 -> P 7 -> P 8 -> P 9 ->
  P 10 -> P 11 -> P 12 -> P 13 -> P 14 -> P 15 -> P n.
Proof.
  intros H. intros.
  rewrite <- (Z2Nat.id n) by lia.
  assert (Z.to_nat n <= 15)%nat as Hk by lia.
  revert Hk. generalize (Z.to_nat n). intros k Hk.
  do 16 (destruct k as [|k]; [assumption|]). lia.
Qed.

Lemma hex_digit_lower (n : Z) :
  0 <= n <= 15 -> PyStr.is_lower_hex_char (SHA1.hex_digit n) = true.
Proof. intros H. apply (sixteen_cases n); auto. Qed.

Lemma hex_digit_inj (m n : Z) :
  0 <= m <= 15 -> 0 <= n <= 15 ->
  SHA1.hex_digit m = SHA1.hex_digit n -> m = n.
Proof.
  intros Hm Hn.
  apply (sixteen_cases m); [assumption|..];
    apply (sixteen_cases n); try assumption;
    first [reflexivity | discriminate].
Qed.

Lemma hex8_shape (w : Z) (rest : string) :
  String.length (SHA1.hex8 w rest) = (8 + String.length rest)%nat
  /\ PyStr.all_chars PyStr.is_lower_hex_char (SHA1.hex8 w rest)
     = PyStr.all_chars PyStr.is_lower_hex_char rest.
Proof.
  split; [reflexivity|].
  unfold SHA1.hex8. cbn [PyStr.all_chars].
  rewrite !hex_digit_lower by apply nibble_range. reflexivity.
Qed.

Lemma hexdigest_length (s : SHA1.state) :
  String.length (SHA1.hexdigest s) = 40%nat.
Proof. reflexivity. Qed.

Lemma hexdigest_lower_hex (s : SHA1.state) :
  PyStr.all_chars PyStr.is_lower_hex_char (SHA1.hexdigest s) = true.
Proof.
  unfold SHA1.hexdigest.
  repeat (rewrite (proj2 (hex8_shape _ _))). reflexivity.
Qed.

Lemma lower_char_hex (c : ascii) :
  PyStr.is_lower_hex_char c = true -> PyStr.lower_char c = c.
Proof.
  unfold PyStr.is_lower_hex_char, PyStr.lower_char, PyStr.is_upper.
  intros H.
  destruct ((65 <=? PyStr.ord c) && (PyStr.ord c <=? 90)) eqn:E;
    [|reflexivity].
  apply andb_true_iff in E.
  apply orb_true_iff in H as [H|H]; apply andb_true_iff in H; lia.
Qed.

Lemma lower_hex_fixed (s : string) :
  PyStr.all_chars PyStr.is_lower_hex_char s = true -> PyStr.lower s = s.
Proof.
  induction s as [|c s IH]; simpl; [reflexivity|].
  intros [Hc Hs]%andb_true_iff.
  rewrite (lower_char_hex _ Hc), (IH Hs). reflexivity.
Qed.

Lemma lower_hexdigest (s : SHA1.state) :
  PyStr.lower (SHA1.hexdigest s) = SHA1.hexdigest s.
Proof. apply lower_hex_fixed, hexdigest_lower_hex. Qed.

Lemma lower_length (s : string) :
  String.length (PyStr.lower s) = String.length s.
Proof. induction s as [|c s IH]; simpl; congruence. Qed.

Lemma string_cons_inj (c c' : ascii) (s s' : string) :
  String c s = String c' s' -> c = c' /\ s = s'.
Proof. intros [= -> ->]. auto. Qed.

Lemma digit_step (x y : Z) :
  x mod 16 = y mod 16 -> x / 16 = y / 16 -> x = y.
Proof.
  intros Hm Hd.
  rewrite (Z.div_mod x 16), (Z.div_mod y 16) by lia. congruence.
Qed.

Lemma top_digit (x : Z) :
  0 <= x < 4294967296 -> (x / 268435456) mod 16 = x / 268435456.
Proof.
  intros H. apply Z.mod_small. split.
  - apply Z.div_pos; lia.
  - apply Z.div_lt_upper_bound; lia.
Qed.

(** A 32-bit word is determined by its eight hexadecimal digits. *)
Lemma hex8_inj (w w' : Z) (r r' : string) :
  word32 w -> word32 w' ->
  SHA1.hex8 w r = SHA1.hex8 w' r' -> w = w' /\ r = r'.
Proof.
  unfold word32, SHA1.modulus. intros Hw Hw' E.
  unfold SHA1.hex8 in E.
  apply string_cons_inj in E as [E7 E]. apply string_cons_inj in E as [E6 E].
  apply string_cons_inj in E as [E5 E]. apply string_cons_inj in E as [E4 E].
  apply string_cons_inj in E as [E3 E]. apply string_cons_inj in E as [E2 E].
  apply string_cons_inj in E as [E1 E]. apply string_cons_inj in E as [E0 Er].
  split; [|assumption].
  apply hex_digit_inj in E0, E1, E2, E3, E4, E5, E6, E7;
    try apply nibble_range.
  rewrite !nibble_div in * by lia.
  change (2 ^ (4 * 0)) with 1 in *. change (2 ^ (4 * 1)) with 16 in *.
  change (2 ^ (4 * 2)) with 256 in *. change (2 ^ (4 * 3)) with 4096 in *.
  change (2 ^ (4 * 4)) with 65536 in *.
  change (2 ^ (4 * 5)) with 1048576 in *.
  change (2 ^ (4 * 6)) with 16777216 in *.
  change (2 ^ (4 * 7)) with 268435456 in *.
  change (2 ^ 32) with 4294967296 in *.
  assert (Q7 : w / 268435456 = w' / 268435456)
    by (rewrite <- (top_digit w), <- (top_digit w'); assumption).
  assert (Q6 : w / 16777216 = w' / 16777216)
    by (apply digit_step; [exact E6 | rewrite !Z.div_div by lia; exact Q7]).
  assert (Q5 : w / 1048576 = w' / 1048576)
    by (apply digit_step; [exact E5 | rewrite !Z.div_div by lia; exact Q6]).
  assert (Q4 : w / 65536 = w' / 65536)
    by (apply digit_step; [exact E4 | rewrite !Z.div_div by lia; exact Q5]).
  assert (Q3 : w / 4096 = w' / 4096)
    by (apply digit_step; [exact E3 | rewrite !Z.div_div by lia; exact Q4]).
  assert (Q2 : w / 256 = w' / 256)
    by (apply digit_step; [exact E2 | rewrite !Z.div_div by lia; exact Q3]).
  assert (Q1 : w / 16 = w' / 16)
    by (apply digit_step; [exact E1 | rewrite !Z.div_div by lia; exact Q2]).
  rewrite !Z.div_1_r in E0.
  apply digit_step; assumption.
Qed.

Lemma hexdigest_inj (s s' : SHA1.state) :
  state32 s -> state32 s' ->
  SHA1.hexdigest s = SHA1.hexdigest s' -> s = s'.
Proof.
  destruct s as [a b c d e], s' as [a' b' c' d' e'].
  unfold state32, SHA1.hexdigest.
  cbn [SHA1.h0 SHA1.h1 SHA1.h2 SHA1.h3 SHA1.h4].
  intros (Ha & Hb & Hc & Hd & He) (Ha' & Hb' & Hc' & Hd' & He') E.
  apply hex8_inj in E as [-> E]; [|assumption..].
  apply hex8_inj in E as [-> E]; [|assumption..].
  apply hex8_inj in E as [-> E]; [|assumption..].
  apply hex8_inj in E as [-> E]; [|assumption..].
  apply hex8_inj in E as [-> E]; [|assumption..].
  reflexivity.
Qed.

Lemma add32_word (a b : Z) : word32 (SHA1.add32 a b).
Proof. apply Z.mod_pos_bound. reflexivity. Qed.

Lemma compress_state32 (h : SHA1.state) (block : list Z) :
  state32 (SHA1.compress h block).
Proof. unfold SHA1.compress, state32.
  cbn [SHA1.h0 SHA1.h1 SHA1.h2 SHA1.h3 SHA1.h4].
  auto 6 using add32_word. Qed.

Lemma init_state32 : state32 SHA1.init.
Proof. unfold state32, word32. vm_compute. intuition discriminate. Qed.

Lemma fold_compress_state32 (bs : list (list Z)) (h : SHA1.state) :
  state32 h -> state32 (fold_left SHA1.compress bs h).
Proof.
  revert h. induction bs as [|b bs IH]; simpl; intros h Hh; [assumption|].
  apply IH, compress_state32.
Qed.

Lemma sha1_state32 (msg : list Z) : state32 (SHA1.sha1 msg).
Proof. apply fold_compress_state32, init_state32. Qed.

End Digest.

(** * Properties of the provider calls *)

Section Runs.
Context {PState : Type} (X : Externals PState).

#[local] Arguments derived_id : simpl never.
#[local] Arguments Datetime.isoformat : simpl never.
#[local] Arguments event_body : simpl never.

Lemma build_timeslot_event_id_derived (timeslot : Timeslot.t) :
  build_timeslot_event_id timeslot = Return (derived_id timeslot).
Proof. apply build_timeslot_event_id_eq. Qed.

Lemma build_calendar_client_world (user : User) (w : World PState) :
  build_calendar_client user w = (fst (build_calendar_client user w), w).
Proof. reflexivity. Qed.

Lemma build_calendar_client_ok (user : User) (w : World PState) client :
  fst (build_calendar_client user w) = Return client ->
  build_calendar_client user w = (Return client, w).
Proof. intros H. rewrite build_calendar_client_world, H. reflexivity. Qed.

Lemma build_calendar_client_fail (user : User) (w : World PState) e :
  fst (build_calendar_client user w) = Raise e ->
  build_calendar_client user w = (Raise e, w).
Proof. intros H. rewrite build_calendar_client_world, H. reflexivity. Qed.

(** The client depends on the credential store only. *)
Lemma build_calendar_client_db (user : User) (w w' : World PState) :
  db w = db w' ->
  fst (build_calendar_client user w) = fst (build_calendar_client user w').
Proof. intros H. unfold build_calendar_client. simpl. rewrite H. reflexivity. Qed.

Lemma execute_answered (r : HttpRequest) (w : World PState) :
  execute X r w
  = (fst (provider X r (provider_state w)),
     answered w r (fst (provider X r (provider_state w)))
              (snd (provider X r (provider_state w)))).
Proof.
  unfold execute. destruct (provider X r (provider_state w)). reflexivity.
Qed.

Lemma localize_naive (zone : string) (dt : datetime) :
  Datetime.localize (utcoffset X) zone (Datetime.replace_tzinfo dt None)
  = Return (Datetime.replace_tzinfo dt
              (Some {| tz_zone := zone;
                       tz_utcoffset :=
                         utcoffset X zone (Datetime.replace_tzinfo dt None) |})).
Proof. reflexivity. Qed.

(** [delete_timeslot_event], step by step. *)
Lemma delete_timeslot_event_run (timeslot : Timeslot.t) (w : World PState)
    client :
  fst (build_calendar_client (owner_of timeslot) w) = Return client ->
  let r := events_delete client (calendar_of timeslot)
             (JStr (derived_id timeslot)) in
  let a := fst (provider X r (provider_state w)) in
  delete_timeslot_event X timeslot w
  = (delete_outcome a,
     answered w r a (snd (provider X r (provider_state w)))).
Proof.
  intros Hc r a. unfold delete_timeslot_event, bind, try_except, lift.
  fold (owner_of timeslot).
  rewrite (build_calendar_client_ok _ _ _ Hc).
  rewrite build_timeslot_event_id_derived.
  fold (calendar_of timeslot). fold r.
  rewrite execute_answered. fold a.
  destruct a as [j|e]; [reflexivity|].
  destruct e as [status| | | | | | | |]; try reflexivity.
  unfold delete_outcome, raise, ret.
  destruct (decide (status = 404)) as [->|H404]; [reflexivity|].
  destruct (decide (status = 410)) as [->|H410]; [reflexivity|].
  rewrite bool_decide_eq_false_2
    by (rewrite !elem_of_cons, elem_of_nil; tauto).
  apply Z.eqb_neq in H404, H410. rewrite H404, H410. reflexivity.
Qed.

Lemma delete_timeslot_event_no_client (timeslot : Timeslot.t)
    (w : World PState) e :
  fst (build_calendar_client (owner_of timeslot) w) = Raise e ->
  delete_timeslot_event X timeslot w = (Raise e, w).
Proof.
  intros Hc. unfold delete_timeslot_event, bind. fold (owner_of timeslot).
  rewrite (build_calendar_client_fail _ _ _ Hc). reflexivity.
Qed.

(** [update_timeslot_event] on a timeslot that has reservations. *)
Lemma update_timeslot_event_run (timeslot : Timeslot.t) (w : World PState)
    client :
  Timeslot.reservation_set timeslot <> [] ->
  fst (build_calendar_client (owner_of timeslot) w) = Return client ->
  let body := sync_body X timeslot in
  let r1 := events_patch client (calendar_of timeslot)
              (JStr (derived_id timeslot)) 1 body in
  let r2 := events_insert client (calendar_of timeslot) 1 body in
  let a1 := fst (provider X r1 (provider_state w)) in
  let w1 := answered w r1 a1 (snd (provider X r1 (provider_state w))) in
  let a2 := fst (provider X r2 (provider_state w1)) in
  let w2 := answered w1 r2 a2 (snd (provider X r2 (provider_state w1))) in
  update_timeslot_event X timeslot w
  = match a1 with
    | Return _ => (Return tt, w1)
    | Raise (HttpError _) => (unit_outcome a2, w2)
    | Raise e => (Raise e, w1)
    end.
Proof.
  intros Hr Hc body r1 r2 a1 w1 a2 w2.
  unfold update_timeslot_event, bind, try_except, lift.
  fold (owner_of timeslot).
  rewrite (build_calendar_client_ok _ _ _ Hc).
  destruct (Timeslot.reservation_set timeslot) as [|res rest] eqn:Hres;
    [congruence|].
  replace (Z.of_nat (length (res :: rest)) =? 0) with false
    by (symmetry; apply Z.eqb_neq; simpl length; lia).
  rewrite build_timeslot_event_id_derived.
  rewrite !localize_naive.
  fold (in_new_york X (Timeslot.time_from timeslot)).
  fold (in_new_york X (Timeslot.time_to timeslot)).
  fold (sync_body X timeslot). fold body.
  fold (calendar_of timeslot). fold r1. fold r2.
  rewrite execute_answered. fold a1. fold w1.
  destruct a1 as [j|e]; [reflexivity|].
  destruct e; try reflexivity.
  rewrite execute_answered. fold a2. fold w2.
  destruct a2; reflexivity.
Qed.

Lemma update_timeslot_event_no_client (timeslot : Timeslot.t)
    (w : World PState) e :
  fst (build_calendar_client (owner_of timeslot) w) = Raise e ->
  update_timeslot_event X timeslot w = (Raise e, w).
Proof.
  intros Hc. unfold update_timeslot_event, bind. fold (owner_of timeslot).
  rewrite (build_calendar_client_fail _ _ _ Hc). reflexivity.
Qed.

Lemma update_timeslot_event_empty (timeslot : Timeslot.t) (w : World PState) :
  Timeslot.reservation_set timeslot = [] ->
  update_timeslot_event X timeslot w = delete_timeslot_event X timeslot w.
Proof.
  intros Hr. unfold update_timeslot_event, bind at 1. rewrite Hr.
  change (Z.of_nat (length []) =? 0) with true. cbv iota.
  rewrite build_calendar_client_world.
  destruct (fst (build_calendar_client
                   (Schedule.owner (Timeslot.schedule timeslot)) w))
    as [client|e] eqn:Hc; [reflexivity|].
  symmetry. apply delete_timeslot_event_no_client. exact Hc.
Qed.

End Runs.

Section Logs.
Context {PState : Type} (X : Externals PState).

Lemma event_body_fields (timeslot : Timeslot.t) (start end_ : string)
    (conf : JSON) (event_id : string) :
  let body := event_body timeslot start end_ conf event_id in
  dict_get "start" body = Some (JDict [("dateTime", JStr start)])
  /\ dict_get "end" body = Some (JDict [("dateTime", JStr end_)])
  /\ dict_get "conferenceData" body = Some conf
  /\ dict_get "attendees" body
     = Some (JList (map attendee (Timeslot.reservation_set timeslot)))
  /\ dict_get "reminders" body
     = Some (JDict [("useDefault", JBool false);
                    ("overrides",
                       JList [JDict [("method", JStr "email");
                                     ("minutes", JInt (2 * (24 * 60)))];
                              JDict [("method", JStr "email");
                                     ("minutes", JInt (1 * (24 * 60)))];
                              JDict [("method", JStr "email");
                                     ("minutes", JInt 10)]])])
  /\ dict_get "id" body = Some (JStr event_id).
Proof. repeat split. Qed.

(** The requests a sync with reservations executes: the patch, and the
    insert exactly when the patch was answered with an [HttpError]. *)
Lemma update_timeslot_event_calls (timeslot : Timeslot.t)
    (w : World PState) client :
  Timeslot.reservation_set timeslot <> [] ->
  fst (build_calendar_client (owner_of timeslot) w) = Return client ->
  let body := sync_body X timeslot in
  let r1 := events_patch client (calendar_of timeslot)
              (JStr (derived_id timeslot)) 1 body in
  let r2 := events_insert client (calendar_of timeslot) 1 body in
  exists new,
    executed (snd (update_timeslot_event X timeslot w)) = executed w ++ new
    /\ match fst (provider X r1 (provider_state w)) with
       | Raise (HttpError _) => calls_of new = [request_call r1; request_call r2]
       | _ => calls_of new = [request_call r1]
       end.
Proof.
  intros Hr Hc body r1 r2.
  rewrite (update_timeslot_event_run X timeslot w client Hr Hc).
  fold body. fold r1. fold r2.
  destruct (fst (provider X r1 (provider_state w))) as [j|e] eqn:Ha.
  - eexists. split; reflexivity.
  - destruct e; try (eexists; split; reflexivity).
    eexists. split.
    + cbn [snd answered executed]. rewrite <- app_assoc. reflexivity.
    + reflexivity.
Qed.

Lemma delete_timeslot_event_calls (timeslot : Timeslot.t) (w : World PState) :
  exists new,
    executed (snd (delete_timeslot_event X timeslot w)) = executed w ++ new
    /\ match fst (build_calendar_client (owner_of timeslot) w) with
       | Return _ =>
           calls_of new
           = [EventsDelete (calendar_of timeslot) (JStr (derived_id timeslot))]
       | Raise _ => new = []
       end.
Proof.
  destruct (fst (build_calendar_client (owner_of timeslot) w))
    as [client|e] eqn:Hc.
  - rewrite (delete_timeslot_event_run X timeslot w client Hc).
    eexists. split; reflexivity.
  - rewrite (delete_timeslot_event_no_client X timeslot w e Hc).
    exists []. rewrite app_nil_r. split; reflexivity.
Qed.

End Logs.

(** * The in-memory provider *)

Section InMemoryFacts.
Import InMemory.

(** Deleting is absorbed: whatever the store, the answer is one that
    [delete_timeslot_event] takes for success, and a second delete is
    answered not-found or gone and changes nothing. *)
Lemma step_delete_absorbs (c : Client) (cal e : string) (st : store) :
  let r := events_delete c (JStr cal) (JStr e) in
  let st1 := snd (step r st) in
  delete_outcome (fst (step r st)) = Return tt
  /\ (fst (step r st1) = Raise (HttpError 404)
      \/ fst (step r st1) = Raise (HttpError 410))
  /\ snd (step r st1) = st1.
Proof.
  intros r st1. subst r st1. unfold step.
  cbn [request_call events_delete].
  destruct (bool_decide (cal ∈ calendars st)) eqn:Hcal.
  - destruct (events st !! (cal, e)) as [old|] eqn:Hev.
    + cbn [fst snd calendars events trash]. rewrite Hcal.
      rewrite lookup_delete_eq.
      rewrite bool_decide_eq_true_2 by set_solver.
      cbn [fst snd]. auto.
    + destruct (bool_decide ((cal, e) ∈ trash st)) eqn:Htr;
        cbn [fst snd]; rewrite Hcal, Hev, Htr; cbn [fst snd]; auto.
  - cbn [fst snd]. rewrite Hcal. cbn [fst snd]. auto.
Qed.

Lemma step_patch_missing (c : Client) (cal e : string) (body : JSON)
    (st : store) :
  events st !! (cal, e) = None ->
  step (events_patch c (JStr cal) (JStr e) 1 body) st
  = (Raise (HttpError 404), st).
Proof.
  intros Hev. unfold step. cbn [request_call events_patch].
  rewrite Hev. destruct (bool_decide (cal ∈ calendars st)); reflexivity.
Qed.

Lemma step_patch_present (c : Client) (cal e : string) (body : JSON)
    (st : store) :
  cal ∈ calendars st -> is_Some (events st !! (cal, e)) ->
  exists j, fst (step (events_patch c (JStr cal) (JStr e) 1 body) st)
            = Return j.
Proof.
  intros Hcal [old Hev]. unfold step. cbn [request_call events_patch].
  rewrite bool_decide_eq_true_2, Hev by assumption. eauto.
Qed.

Lemma step_delete_present (c : Client) (cal e : string) (st : store) :
  cal ∈ calendars st -> is_Some (events st !! (cal, e)) ->
  fst (step (events_delete c (JStr cal) (JStr e)) st) = Return JNull.
Proof.
  intros Hcal [old Hev]. unfold step. cbn [request_call events_delete].
  rewrite bool_decide_eq_true_2, Hev by assumption. reflexivity.
Qed.

(** An insert at a fresh id stores the event under the id its body names. *)
Lemma step_insert_fresh (c : Client) (cal e : string) (body : JSON)
    (st : store) :
  cal ∈ calendars st -> events st !! (cal, e) = None ->
  (cal, e) ∉ trash st -> dict_get "id" body = Some (JStr e) ->
  let r := events_insert c (JStr cal) 1 body in
  (exists stored, fst (step r st) = Return stored)
  /\ cal ∈ calendars (snd (step r st))
  /\ is_Some (events (snd (step r st)) !! (cal, e)).
Proof.
  intros Hcal Hev Htr Hid r. subst r. unfold step.
  cbn [request_call events_insert].
  rewrite bool_decide_eq_true_2, Hid, Hev by assumption.
  rewrite bool_decide_eq_false_2 by assumption.
  cbn [fst snd bump with_events calendars events].
  split; [eauto|]. split; [assumption|].
  rewrite lookup_insert_eq. eauto.
Qed.

End InMemoryFacts.

(** * The claims *)

(** C1.  For every timeslot, [build_timeslot_event_id] returns the lowercase
    hexadecimal SHA-1 digest of the ASCII encoding of
    ["{timeslot_id}@{schedule_id}#ratatoskr.techhigh.us"] (the encoding
    succeeds and yields the bytes of that string); for timeslot id 42 in
    schedule 7 the string is ["42@7#ratatoskr.techhigh.us"] and the
    identifier is its digest, [6391ce73...0047]. *)
Theorem build_timeslot_event_id_sha1_hex :
  (forall timeslot : Timeslot.t,
     let s := pre_hash (Timeslot.id timeslot)
                (Schedule.id (Timeslot.schedule timeslot)) in
     PyStr.encode_ascii s = Some (PyStr.to_bytes s)
     /\ build_timeslot_event_id timeslot
        = Return (PyStr.lower
                    (SHA1.hexdigest (SHA1.sha1 (PyStr.to_bytes s)))))
  /\ (forall timeslot : Timeslot.t,
        Timeslot.id timeslot = 42 ->
        Schedule.id (Timeslot.schedule timeslot) = 7 ->
        build_timeslot_event_id timeslot
        = Return (PyStr.lower
                    (SHA1.hexdigest
                       (SHA1.sha1
                          (PyStr.to_bytes "42@7#ratatoskr.techhigh.us"))))
        /\ build_timeslot_event_id timeslot
           = Return "6391ce73031e61bb257aca03be8a7c96a46f0047").
Proof.
  split.
  - intros timeslot s. split.
    + unfold PyStr.encode_ascii. subst s. rewrite pre_hash_is_ascii.
      reflexivity.
    + apply build_timeslot_event_id_eq.
  - intros timeslot Ht Hs.
    rewrite build_timeslot_event_id_eq. unfold pre_image.
    rewrite Ht, Hs.
    replace (pre_hash 42 7) with "42@7#ratatoskr.techhigh.us"
      by (vm_compute; reflexivity).
    split; [reflexivity|].
    vm_compute. reflexivity.
Qed.

Lemma build_timeslot_event_id_sha1_hex_witness :
  build_timeslot_event_id (Sample.timeslot [Sample.bob])
  = Return "6391ce73031e61bb257aca03be8a7c96a46f0047".
Proof.
  apply (proj2 build_timeslot_event_id_sha1_hex (Sample.timeslot [Sample.bob]));
    reflexivity.
Defined.

(** C8.  For every (schedule id, timeslot id) pair the derived identifier is
    a string of exactly 40 lowercase hexadecimal characters, and every
    timeslot with the same pair of ids gets the identical identifier. *)
Theorem event_id_forty_lower_hex_stable :
  forall timeslot : Timeslot.t,
  exists event_id : string,
    build_timeslot_event_id timeslot = Return event_id
    /\ String.length event_id = 40%nat
    /\ PyStr.all_chars PyStr.is_lower_hex_char event_id = true
    /\ forall other : Timeslot.t,
         Timeslot.id other = Timeslot.id timeslot ->
         Schedule.id (Timeslot.schedule other)
         = Schedule.id (Timeslot.schedule timeslot) ->
         build_timeslot_event_id other = Return event_id.
Proof.
  intros timeslot. exists (derived_id timeslot).
  split; [apply build_timeslot_event_id_eq|].
  unfold derived_id. rewrite lower_hexdigest.
  split; [apply hexdigest_length|].
  split; [apply hexdigest_lower_hex|].
  intros other Ht Hs. rewrite build_timeslot_event_id_eq, lower_hexdigest.
  unfold pre_image. rewrite Ht, Hs. reflexivity.
Qed.

Lemma event_id_forty_lower_hex_stable_witness :
  exists event_id : string,
    build_timeslot_event_id (Sample.timeslot []) = Return event_id
    /\ String.length event_id = 40%nat
    /\ build_timeslot_event_id (Sample.timeslot [Sample.bob; Sample.carol])
       = Return event_id.
Proof.
  destruct (event_id_forty_lower_hex_stable (Sample.timeslot []))
    as (event_id & Hid & Hlen & _ & Hsame).
  exists event_id. split; [exact Hid|]. split; [exact Hlen|].
  apply Hsame; reflexivity.
Defined.

Section Sample.

Lemma distinct_map_inj {A} (f : A -> string) (l : list A) (x y : A) :
  distinct (map f l) = true -> In x l -> In y l -> f x = f y -> x = y.
Proof.
  induction l as [|z l IH]; simpl; [intros _ []|].
  intros [Hz Hl]%andb_true_iff Hx Hy E.
  apply negb_true_iff in Hz.
  assert (forall u, In u l -> f z <> f u) as Hfresh.
  { intros u Hu Ezu.
    assert (existsb (String.eqb (f z)) (map f l) = true) as Hex
      by (apply existsb_exists; exists (f u);
          split; [apply in_map, Hu | apply String.eqb_eq, Ezu]).
    congruence. }
  destruct Hx as [<-|Hx], Hy as [<-|Hy].
  - reflexivity.
  - destruct (Hfresh y Hy E).
  - destruct (Hfresh x Hx (eq_sym E)).
  - apply IH; assumption.
Qed.

Lemma in_sample_pairs (n m : nat) (t s : Z) :
  0 <= t < Z.of_nat n -> 0 <= s < Z.of_nat m -> In (t, s) (sample_pairs n m).
Proof.
  intros Ht Hs. unfold sample_pairs. apply in_prod; apply in_map_iff.
  - exists (Z.to_nat t). split; [lia|]. apply in_seq. lia.
  - exists (Z.to_nat s). split; [lia|]. apply in_seq. lia.
Qed.

Lemma build_timeslot_event_id_pair (timeslot : Timeslot.t) :
  build_timeslot_event_id timeslot
  = Return (pair_id (Timeslot.id timeslot,
                     Schedule.id (Timeslot.schedule timeslot))).
Proof. apply build_timeslot_event_id_eq. Qed.

(** The 512 identifiers of the timeslots 0 to 63 of the schedules 0 to 7,
    computed one by one, are all different. *)
Lemma sample_ids_distinct :
  distinct (map pair_id (sample_pairs 64 8)) = true.
Proof. vm_cast_no_check (eq_refl true). Qed.

End Sample.

(** C9.  The pre-hash strings are injective in the pair of integer ids, so
    distinct pairs give distinct inputs to SHA-1, and two identifiers are
    equal exactly when the SHA-1 digests of the two inputs are: a collision
    of identifiers of distinct pairs is a collision of SHA-1.  No probability
    is stated; in its place, on the sample of the 512 pairs with timeslot
    id 0 to 63 and schedule id 0 to 7, distinct pairs do get distinct
    identifiers, every one of them computed. *)
Theorem distinct_pairs_collide_only_in_sha1 :
  (forall t1 s1 t2 s2 : Z,
     percent_format CALENDAR_TIMESLOT_EVENT_ID
       [("schedule_id", s1); ("timeslot_id", t1)]
     = percent_format CALENDAR_TIMESLOT_EVENT_ID
         [("schedule_id", s2); ("timeslot_id", t2)] ->
     t1 = t2 /\ s1 = s2)
  /\ (forall a b : Timeslot.t,
        (Timeslot.id a, Schedule.id (Timeslot.schedule a))
        <> (Timeslot.id b, Schedule.id (Timeslot.schedule b)) ->
        pre_image a <> pre_image b
        /\ (build_timeslot_event_id a = build_timeslot_event_id b
            <-> SHA1.sha1 (pre_image a) = SHA1.sha1 (pre_image b)))
  /\ (forall a b : Timeslot.t,
        0 <= Timeslot.id a < 64 ->
        0 <= Schedule.id (Timeslot.schedule a) < 8 ->
        0 <= Timeslot.id b < 64 ->
        0 <= Schedule.id (Timeslot.schedule b) < 8 ->
        (Timeslot.id a, Schedule.id (Timeslot.schedule a))
        <> (Timeslot.id b, Schedule.id (Timeslot.schedule b)) ->
        build_timeslot_event_id a <> build_timeslot_event_id b).
Proof.
  split; [|split].
  - intros t1 s1 t2 s2. rewrite !percent_format_event_id.
    intros E%Return_inj. apply pre_hash_inj, E.
  - intros a b Hne. split.
    + unfold pre_image. intros E%to_bytes_inj%pre_hash_inj.
      destruct E as [Et Es]. apply Hne. rewrite Et, Es. reflexivity.
    + rewrite !build_timeslot_event_id_eq, !lower_hexdigest. split.
      * intros E%Return_inj. apply hexdigest_inj; auto using sha1_state32.
      * intros E. rewrite E. reflexivity.
  - intros a b Hta Hsa Htb Hsb Hne.
    rewrite !build_timeslot_event_id_pair. intros E%Return_inj.
    apply Hne.
    apply (distinct_map_inj pair_id (sample_pairs 64 8));
      [exact sample_ids_distinct | apply in_sample_pairs; lia..
      | exact E].
Qed.

Lemma distinct_pairs_collide_only_in_sha1_witness :
  pre_image (Sample.timeslot [])
  <> pre_image {| Timeslot.id := 43; Timeslot.schedule := Sample.schedule;
                  Timeslot.time_from := Sample.at_hour 9;
                  Timeslot.time_to := Sample.at_hour 10;
                  Timeslot.reservation_set := [] |}
  /\ percent_format CALENDAR_TIMESLOT_EVENT_ID
       [("schedule_id", 7); ("timeslot_id", 42)]
     = Return "42@7#ratatoskr.techhigh.us"
  /\ build_timeslot_event_id (Sample.timeslot [])
     <> build_timeslot_event_id
          {| Timeslot.id := 43; Timeslot.schedule := Sample.schedule;
             Timeslot.time_from := Sample.at_hour 9;
             Timeslot.time_to := Sample.at_hour 10;
             Timeslot.reservation_set := [] |}.
Proof.
  destruct distinct_pairs_collide_only_in_sha1 as (Hinj & Hsha & Hsample).
  split; [|split].
  - apply Hsha. simpl. congruence.
  - destruct (Hinj 42 7 42 7 eq_refl). reflexivity.
  - apply Hsample; simpl; try lia. congruence.
Defined.

(** Whatever the status of the [HttpError] that answers the patch, the sync
    goes on to insert; the error itself is dropped. *)
Lemma update_timeslot_event_any_http_error_inserts {PState}
    (X : Externals PState) (timeslot : Timeslot.t) (w : World PState)
    client status :
  Timeslot.reservation_set timeslot <> [] ->
  fst (build_calendar_client (owner_of timeslot) w) = Return client ->
  fst (provider X
         (events_patch client (calendar_of timeslot)
            (JStr (derived_id timeslot)) 1 (sync_body X timeslot))
         (provider_state w)) = Raise (HttpError status) ->
  exists new,
    executed (snd (update_timeslot_event X timeslot w)) = executed w ++ new
    /\ calls_of new
       = [EventsPatch (calendar_of timeslot) (JStr (derived_id timeslot)) 1
            (sync_body X timeslot);
          EventsInsert (calendar_of timeslot) 1 (sync_body X timeslot)].
Proof.
  intros Hr Hc Ha.
  destruct (update_timeslot_event_calls X timeslot w client Hr Hc)
    as (new & Hlog & Hcalls).
  rewrite Ha in Hcalls. exists new. split; assumption.
Qed.

(** C2 (the code departs from the claim).  The event of the sample timeslot
    exists at the provider and the patch is answered with a server error,
    status 500.  The error does not reach the caller: an insert is executed
    as well, and what the caller sees is the conflict, status 409, that the
    insert runs into. *)
Theorem update_timeslot_event_server_error_inserts :
  let X := InMemory.externals_with (InMemory.step_refusing_patch 500) in
  let timeslot := Sample.timeslot [Sample.bob] in
  let run := update_timeslot_event X timeslot (Sample.world_of Sample.synced) in
  is_Some (InMemory.events Sample.synced
             !! ("cal-0", "6391ce73031e61bb257aca03be8a7c96a46f0047"))
  /\ fst run = Raise (HttpError 409)
  /\ calls_of (executed (snd run))
     = [EventsPatch (JStr "cal-0")
          (JStr "6391ce73031e61bb257aca03be8a7c96a46f0047") 1
          (sync_body X timeslot);
        EventsInsert (JStr "cal-0") 1 (sync_body X timeslot)]
  /\ map snd (executed (snd run))
     = [Raise (HttpError 500); Raise (HttpError 409)].
Proof.
  vm_compute. split; [eauto|]. repeat split.
Qed.

(** C3 (the code departs from the claim).  [delete_calendar_for_schedule]
    builds the delete request and never executes it: it leaves the world as
    it found it, no request logged and the provider untouched.  On the
    sample schedule it returns normally and the calendar is still there. *)
Theorem delete_calendar_for_schedule_executes_nothing :
  (forall (PState : Type) (schedule : Schedule.t) (w : World PState),
     snd (delete_calendar_for_schedule schedule w) = w)
  /\ (let run := delete_calendar_for_schedule Sample.schedule Sample.world in
      fst run = Return tt
      /\ executed (snd run) = []
      /\ Schedule.calendar_id Sample.schedule
         ∈ InMemory.calendars (provider_state (snd run))).
Proof.
  split.
  - intros PState schedule w. unfold delete_calendar_for_schedule, bind.
    rewrite build_calendar_client_world.
    destruct (fst (build_calendar_client (Schedule.owner schedule) w));
      reflexivity.
  - vm_compute. repeat split.
Qed.

(** C4.  For a timeslot without reservations [update_timeslot_event] does
    what [delete_timeslot_event] does, outcome and world alike; what it
    executes is no patch and no insert, but the one delete of the event at
    the derived id (nothing at all when no client can be built). *)
Theorem update_without_reservations_deletes :
  forall (PState : Type) (X : Externals PState) (timeslot : Timeslot.t)
         (w : World PState),
    Z.of_nat (length (Timeslot.reservation_set timeslot)) = 0 ->
    update_timeslot_event X timeslot w = delete_timeslot_event X timeslot w
    /\ exists event_id new,
         build_timeslot_event_id timeslot = Return event_id
         /\ executed (snd (update_timeslot_event X timeslot w))
            = executed w ++ new
         /\ Forall (fun call => is_patch call = false /\ is_insert call = false)
              (calls_of new)
         /\ (calls_of new = []
             \/ calls_of new
                = [EventsDelete
                     (JStr (Schedule.calendar_id (Timeslot.schedule timeslot)))
                     (JStr event_id)])
         /\ (forall client,
               fst (build_calendar_client
                      (Schedule.owner (Timeslot.schedule timeslot)) w)
               = Return client ->
               calls_of new <> []).
Proof.
  intros PState X timeslot w Hcount.
  assert (Timeslot.reservation_set timeslot = []) as Hr
    by (destruct (Timeslot.reservation_set timeslot); [reflexivity|];
        simpl length in Hcount; lia).
  rewrite (update_timeslot_event_empty X timeslot w Hr).
  split; [reflexivity|].
  exists (derived_id timeslot).
  destruct (delete_timeslot_event_calls X timeslot w) as (new & Hlog & Hcalls).
  exists new. split; [apply build_timeslot_event_id_eq|].
  split; [exact Hlog|].
  fold (owner_of timeslot). fold (calendar_of timeslot).
  destruct (fst (build_calendar_client (owner_of timeslot) w)) as [c|e].
  - rewrite Hcalls. split; [repeat constructor|].
    split; [right; reflexivity|]. intros _ _. discriminate.
  - subst new. split; [constructor|].
    split; [left; reflexivity|]. intros client [=].
Qed.

Lemma update_without_reservations_deletes_witness :
  update_timeslot_event InMemory.externals (Sample.timeslot [])
    (Sample.world_of Sample.synced)
  = delete_timeslot_event InMemory.externals (Sample.timeslot [])
      (Sample.world_of Sample.synced).
Proof.
  apply (update_without_reservations_deletes _ InMemory.externals
           (Sample.timeslot []) (Sample.world_of Sample.synced)).
  reflexivity.
Defined.

(** C5.  [delete_timeslot_event] executes one request, the delete of the
    event at the derived id under the schedule's calendar.  It returns
    normally when the provider answers with success, with 404 or with 410,
    and raises the provider's error again for every other status (errors
    that are no [HttpError] are not caught at all).  Against the in-memory
    provider a delete never raises, and deleting a second time returns
    normally as well and leaves the provider as the first delete left it. *)
Theorem delete_timeslot_event_swallows_missing :
  (forall (PState : Type) (X : Externals PState) (timeslot : Timeslot.t)
          (w : World PState) (client : Client),
     fst (build_calendar_client
            (Schedule.owner (Timeslot.schedule timeslot)) w) = Return client ->
     exists event_id,
       build_timeslot_event_id timeslot = Return event_id
       /\ let request :=
            events_delete client
              (JStr (Schedule.calendar_id (Timeslot.schedule timeslot)))
              (JStr event_id) in
          let answer := fst (provider X request (provider_state w)) in
          let run := delete_timeslot_event X timeslot w in
          executed (snd run) = executed w ++ [(request, answer)]
          /\ provider_state (snd run)
             = snd (provider X request (provider_state w))
          /\ (forall j, answer = Return j -> fst run = Return tt)
          /\ (forall status,
                answer = Raise (HttpError status) ->
                status = 404 \/ status = 410 -> fst run = Return tt)
          /\ (forall status,
                answer = Raise (HttpError status) ->
                status <> 404 -> status <> 410 ->
                fst run = Raise (HttpError status))
          /\ (forall e,
                answer = Raise e -> (forall status, e <> HttpError status) ->
                fst run = Raise e))
  /\ (forall (timeslot : Timeslot.t) (w : World InMemory.store)
             (client : Client),
        fst (build_calendar_client
               (Schedule.owner (Timeslot.schedule timeslot)) w)
        = Return client ->
        let once := delete_timeslot_event InMemory.externals timeslot w in
        let twice :=
          delete_timeslot_event InMemory.externals timeslot (snd once) in
        fst once = Return tt /\ fst twice = Return tt
        /\ provider_state (snd twice) = provider_state (snd once)).
Proof.
  split.
  - intros PState X timeslot w client Hc.
    exists (derived_id timeslot).
    split; [apply build_timeslot_event_id_eq|].
    intros request answer run. subst run.
    rewrite (delete_timeslot_event_run X timeslot w client Hc).
    fold (calendar_of timeslot) in request. fold request. fold answer.
    cbn [fst snd answered executed provider_state].
    split; [reflexivity|]. split; [reflexivity|].
    split; [intros j ->; reflexivity|].
    split; [intros status -> [->| ->]; reflexivity|].
    split.
    + intros status -> H404 H410. unfold delete_outcome.
      apply Z.eqb_neq in H404, H410. rewrite H404, H410. reflexivity.
    + intros e -> He. destruct e; try reflexivity.
      exfalso. eapply He. reflexivity.
  - intros timeslot w client Hc once twice.
    assert (fst (build_calendar_client (owner_of timeslot) (snd once))
            = Return client) as Hc'.
    { rewrite <- Hc. apply build_calendar_client_db. subst once.
      rewrite (delete_timeslot_event_run _ timeslot w client Hc).
      reflexivity. }
    subst twice.
    rewrite (delete_timeslot_event_run _ timeslot (snd once) client Hc').
    subst once.
    rewrite (delete_timeslot_event_run _ timeslot w client Hc).
    cbn [fst snd answered provider_state provider InMemory.externals
         InMemory.externals_with].
    unfold calendar_of.
    destruct (step_delete_absorbs client
                (Schedule.calendar_id (Timeslot.schedule timeslot))
                (derived_id timeslot) (provider_state w))
      as (H1 & H2 & H3).
    split; [exact H1|]. split; [|exact H3].
    destruct H2 as [-> | ->]; reflexivity.
Qed.

Lemma delete_timeslot_event_swallows_missing_witness :
  (* nothing to delete: the provider says 404, the call returns *)
  fst (delete_timeslot_event InMemory.externals (Sample.timeslot [])
         Sample.world) = Return tt
  (* a provider out of order: 503 is raised again *)
  /\ fst (delete_timeslot_event
            (InMemory.externals_with (InMemory.unavailable 503))
            (Sample.timeslot []) Sample.world) = Raise (HttpError 503)
  (* an existing event, deleted twice *)
  /\ fst (delete_timeslot_event InMemory.externals (Sample.timeslot [])
            (snd (delete_timeslot_event InMemory.externals
                    (Sample.timeslot []) (Sample.world_of Sample.synced))))
     = Return tt.
Proof.
  split; [|split].
  - destruct (proj1 delete_timeslot_event_swallows_missing _
                InMemory.externals (Sample.timeslot []) Sample.world
                Sample.client eq_refl)
      as (event_id & Hid & _ & _ & _ & H404 & _).
    apply (H404 404); [|left; reflexivity].
    apply Return_inj in Hid. subst event_id. vm_compute. reflexivity.
  - destruct (proj1 delete_timeslot_event_swallows_missing _
                (InMemory.externals_with (InMemory.unavailable 503))
                (Sample.timeslot []) Sample.world Sample.client eq_refl)
      as (event_id & _ & _ & _ & _ & _ & Hother & _).
    apply Hother; [reflexivity|lia|lia].
  - apply (proj2 delete_timeslot_event_swallows_missing (Sample.timeslot [])
             (Sample.world_of Sample.synced) Sample.client eq_refl).
Defined.

(** C6.  For a timeslot with at least one reservation (and an owner for whom
    a client can be built) [update_timeslot_event] executes at least one
    request, and every request it executes carries a body in which: start
    and end are the ISO forms of the timeslot's times, stripped of their
    zone and localized in America/New_York; the conference data is the
    schedule's stored blob; the attendees are all the reservations, each
    with email, display name and comment; the reminders switch the defaults
    off and list the three overrides of 2 days, 1 day and 10 minutes; the id
    is the derived identifier. *)
Theorem update_timeslot_event_body :
  forall (PState : Type) (X : Externals PState) (timeslot : Timeslot.t)
         (w : World PState) (client : Client),
    0 < Z.of_nat (length (Timeslot.reservation_set timeslot)) ->
    fst (build_calendar_client
           (Schedule.owner (Timeslot.schedule timeslot)) w) = Return client ->
    exists event_id start end_ new,
      build_timeslot_event_id timeslot = Return event_id
      /\ Datetime.localize (utcoffset X) "America/New_York"
           (Datetime.replace_tzinfo (Timeslot.time_from timeslot) None)
         = Return start
      /\ Datetime.localize (utcoffset X) "America/New_York"
           (Datetime.replace_tzinfo (Timeslot.time_to timeslot) None)
         = Return end_
      /\ executed (snd (update_timeslot_event X timeslot w))
         = executed w ++ new
      /\ new <> []
      /\ Forall
           (fun call =>
              exists body,
                call_body call = Some body
                /\ dict_get "start" body
                   = Some (JDict [("dateTime",
                                   JStr (Datetime.isoformat start))])
                /\ dict_get "end" body
                   = Some (JDict [("dateTime",
                                   JStr (Datetime.isoformat end_))])
                /\ dict_get "conferenceData" body
                   = Some (Schedule.calendar_meet_data
                             (Timeslot.schedule timeslot))
                /\ dict_get "attendees" body
                   = Some (JList
                             (map (fun r =>
                                     JDict [("email", JStr (Reservation.email r));
                                            ("displayName",
                                               JStr (Reservation.name r));
                                            ("comment",
                                               JStr (Reservation.comment r))])
                                  (Timeslot.reservation_set timeslot)))
                /\ dict_get "reminders" body
                   = Some (JDict
                             [("useDefault", JBool false);
                              ("overrides",
                                 JList [JDict [("method", JStr "email");
                                               ("minutes", JInt (2 * (24 * 60)))];
                                        JDict [("method", JStr "email");
                                               ("minutes", JInt (1 * (24 * 60)))];
                                        JDict [("method", JStr "email");
                                               ("minutes", JInt 10)]])])
                /\ dict_get "id" body = Some (JStr event_id))
           (calls_of new).
Proof.
  intros PState X timeslot w client Hcount Hc.
  assert (Timeslot.reservation_set timeslot <> []) as Hr
    by (intros E; rewrite E in Hcount; simpl in Hcount; lia).
  exists (derived_id timeslot),
         (in_new_york X (Timeslot.time_from timeslot)),
         (in_new_york X (Timeslot.time_to timeslot)).
  destruct (update_timeslot_event_calls X timeslot w client Hr Hc)
    as (new & Hlog & Hcalls).
  exists new.
  split; [apply build_timeslot_event_id_eq|].
  split; [apply localize_naive|]. split; [apply localize_naive|].
  split; [exact Hlog|].
  split.
  - intros ->.
    destruct (fst (provider X _ (provider_state w))) as [|[]]; discriminate.
  - destruct (fst (provider X _ (provider_state w))) as [j|e];
      [|destruct e]; rewrite Hcalls;
      repeat (apply Forall_cons_2;
              [eexists; split;
               [reflexivity | exact (event_body_fields timeslot _ _ _ _)]|]);
      apply Forall_nil_2.
Qed.

Lemma update_timeslot_event_body_witness :
  exists new,
    executed (snd (update_timeslot_event InMemory.externals
                     (Sample.timeslot [Sample.bob; Sample.carol])
                     Sample.world)) = [] ++ new
    /\ Forall
         (fun call =>
            exists body,
              call_body call = Some body
              /\ dict_get "start" body
                 = Some (JDict [("dateTime", JStr "2024-03-04T14:30:00-05:00")])
              /\ dict_get "id" body
                 = Some (JStr "6391ce73031e61bb257aca03be8a7c96a46f0047"))
         (calls_of new).
Proof.
  destruct (update_timeslot_event_body _ InMemory.externals
              (Sample.timeslot [Sample.bob; Sample.carol]) Sample.world
              Sample.client)
    as (event_id & start & end_ & new & Hid & Hstart & _ & Hlog & _ & Hall).
  - simpl. lia.
  - reflexivity.
  - exists new. split; [exact Hlog|].
    apply Return_inj in Hid, Hstart. subst event_id start.
    eapply Forall_impl; [exact Hall|].
    intros call (body & Hb & Hs & _ & _ & _ & _ & Hi).
    exists body. split; [exact Hb|]. split.
    + rewrite Hs. vm_compute. reflexivity.
    + rewrite Hi. vm_compute. reflexivity.
Defined.

(** C7, as stated, fails.  The in-memory provider answers the placeholder
    event with conference data it issued (conferencing is available), and
    [create_calendar_for_schedule] still returns the empty object. *)
Lemma create_calendar_ignores_issued_conference_data :
  let run :=
    create_calendar_for_schedule InMemory.externals Sample.schedule
      Sample.world in
  exists request event issued calendar_id,
    (request, Return event) ∈ executed (snd run)
    /\ is_insert (request_call request) = true
    /\ dict_get "conferenceData" event = Some issued
    /\ issued <> JDict []
    /\ fst run = Return (JDict [], calendar_id).
Proof.
  vm_compute.
  eexists _, _, _, _. split.
  - apply list_elem_of_In. right. left. reflexivity.
  - repeat split. discriminate.
Qed.

(** C7, amended.  When the client can be built, the two clock readings can
    be made aware and the provider answers the three requests,
    [create_calendar_for_schedule] executes exactly: the insert of the
    calendar, the insert of the placeholder event with its conference
    create-request, and the delete of that event.  It never reads the
    conference data of the provider's answer: the pair it returns is the
    empty object and the id of the new calendar, whatever the provider
    issued. *)
Theorem create_calendar_for_schedule_returns_empty_object :
  forall (PState : Type) (X : Externals PState) (schedule : Schedule.t)
         (w : World PState) (client : Client) (start aware end_ : datetime)
         (calendar calendar_id event event_id gone : JSON)
         (p1 p2 p3 : PState),
    fst (build_calendar_client (Schedule.owner schedule) w) = Return client ->
    make_aware X (clock X (clock_reads w)) = Return start ->
    make_aware X (clock X (S (clock_reads w))) = Return aware ->
    Datetime.add aware (Datetime.timedelta_hours 2) = Return end_ ->
    let placeholder :=
      dummy_event_body (Datetime.isoformat start) (Datetime.isoformat end_)
        (uuid_source X (uuid_draws w)) in
    provider X (calendars_insert client (calendar_body schedule))
      (provider_state w) = (Return calendar, p1) ->
    subscript calendar "id" = Return calendar_id ->
    provider X (events_insert client calendar_id 1 placeholder) p1
    = (Return event, p2) ->
    subscript event "id" = Return event_id ->
    provider X (events_delete client calendar_id event_id) p2
    = (Return gone, p3) ->
    let run := create_calendar_for_schedule X schedule w in
    fst run = Return (JDict [], calendar_id)
    /\ calls_of (executed (snd run))
       = calls_of (executed w)
         ++ [CalendarsInsert (calendar_body schedule);
             EventsInsert calendar_id 1 placeholder;
             EventsDelete calendar_id event_id]
    /\ provider_state (snd run) = p3.
Proof.
  intros PState X schedule w client start aware end_
         calendar calendar_id event event_id gone p1 p2 p3
         Hc Hstart Haware Hend placeholder Hcal Hcid Hev Heid Hdel run.
  subst run. unfold create_calendar_for_schedule, bind.
  rewrite (build_calendar_client_ok _ _ _ Hc).
  unfold now, lift, uuid4_str, execute.
  cbn [clock_reads uuid_draws provider_state executed db].
  rewrite Hstart. cbn [clock_reads uuid_draws provider_state executed db].
  rewrite Haware, Hend.
  cbn [clock_reads uuid_draws provider_state executed db].
  fold placeholder. rewrite Hcal.
  cbn [clock_reads uuid_draws provider_state executed db].
  rewrite Hcid, Hev. cbn [clock_reads uuid_draws provider_state executed db].
  rewrite Heid, Hdel. cbn [fst snd ret executed provider_state].
  split; [reflexivity|]. split; [|reflexivity].
  unfold calls_of. rewrite <- !app_assoc, map_app. reflexivity.
Qed.

Lemma create_calendar_for_schedule_returns_empty_object_witness :
  fst (create_calendar_for_schedule InMemory.externals Sample.schedule
         Sample.world)
  = Return (JDict [], JStr "cal-1").
Proof.
  eapply (create_calendar_for_schedule_returns_empty_object _
            InMemory.externals Sample.schedule Sample.world Sample.client).
  - reflexivity.
  - vm_compute. reflexivity.
  - vm_compute. reflexivity.
  - vm_compute. reflexivity.
  - vm_compute. reflexivity.
  - vm_compute. reflexivity.
  - vm_compute. reflexivity.
  - vm_compute. reflexivity.
  - vm_compute. reflexivity.
Defined.

(** C10.  Whatever [update_timeslot_event] executes names the derived
    identifier: the patch is addressed at it and carries it as the "id" of
    its body, the fallback insert carries it as the "id" of the same body,
    and the delete (of a timeslot without reservations, or of
    [delete_timeslot_event]) is addressed at it.  Hence, against the
    in-memory provider, an event that the fallback insert created is found
    by the next sync (its patch succeeds) and by the next delete. *)
Theorem sent_bodies_carry_derived_id :
  (forall (PState : Type) (X : Externals PState) (timeslot : Timeslot.t)
          (w : World PState),
     let calendar := JStr (Schedule.calendar_id (Timeslot.schedule timeslot)) in
     exists event_id sent removed,
       build_timeslot_event_id timeslot = Return event_id
       /\ executed (snd (update_timeslot_event X timeslot w))
          = executed w ++ sent
       /\ executed (snd (delete_timeslot_event X timeslot w))
          = executed w ++ removed
       /\ Forall
            (fun call =>
               match call with
               | EventsPatch cal eid _ body =>
                   cal = calendar /\ eid = JStr event_id
                   /\ dict_get "id" body = Some (JStr event_id)
               | EventsInsert cal _ body =>
                   cal = calendar /\ dict_get "id" body = Some (JStr event_id)
               | EventsDelete cal eid => cal = calendar /\ eid = JStr event_id
               | _ => False
               end)
            (calls_of sent)
       /\ Forall (fun call => call = EventsDelete calendar (JStr event_id))
            (calls_of removed))
  /\ (forall (timeslot : Timeslot.t) (w : World InMemory.store)
             (client : Client) (event_id : string),
        let calendar := Schedule.calendar_id (Timeslot.schedule timeslot) in
        0 < Z.of_nat (length (Timeslot.reservation_set timeslot)) ->
        fst (build_calendar_client
               (Schedule.owner (Timeslot.schedule timeslot)) w)
        = Return client ->
        build_timeslot_event_id timeslot = Return event_id ->
        calendar ∈ InMemory.calendars (provider_state w) ->
        InMemory.events (provider_state w) !! (calendar, event_id) = None ->
        (calendar, event_id) ∉ InMemory.trash (provider_state w) ->
        let first := update_timeslot_event InMemory.externals timeslot w in
        (exists r1 r2 created,
           executed (snd first)
           = executed w ++ [(r1, Raise (HttpError 404)); (r2, Return created)]
           /\ is_patch (request_call r1) = true
           /\ is_insert (request_call r2) = true)
        /\ (exists r patched,
              executed (snd (update_timeslot_event InMemory.externals
                               timeslot (snd first)))
              = executed (snd first) ++ [(r, Return patched)]
              /\ is_patch (request_call r) = true)
        /\ (exists r,
              executed (snd (delete_timeslot_event InMemory.externals
                               timeslot (snd first)))
              = executed (snd first) ++ [(r, Return JNull)]
              /\ is_event_delete (request_call r) = true)).
Proof.
  split.
  - intros PState X timeslot w calendar.
    exists (derived_id timeslot).
    destruct (delete_timeslot_event_calls X timeslot w)
      as (removed & Hdel & Hremoved).
    assert (Forall (fun call => call = EventsDelete calendar
                                         (JStr (derived_id timeslot)))
              (calls_of removed)) as Hrem.
    { destruct (fst (build_calendar_client (owner_of timeslot) w)).
      - rewrite Hremoved. repeat constructor.
      - subst removed. constructor. }
    destruct (Timeslot.reservation_set timeslot) as [|res rest] eqn:Hres.
    + exists removed, removed.
      rewrite (update_timeslot_event_empty X timeslot w Hres).
      split; [apply build_timeslot_event_id_eq|].
      split; [exact Hdel|]. split; [exact Hdel|]. split; [|exact Hrem].
      eapply Forall_impl; [exact Hrem|]. intros call ->. auto.
    + assert (Timeslot.reservation_set timeslot <> []) as Hr by congruence.
      destruct (fst (build_calendar_client (owner_of timeslot) w))
        as [client|e] eqn:Hc.
      * destruct (update_timeslot_event_calls X timeslot w client Hr Hc)
          as (sent & Hlog & Hsent).
        exists sent, removed.
        split; [apply build_timeslot_event_id_eq|].
        split; [exact Hlog|]. split; [exact Hdel|]. split; [|exact Hrem].
        destruct (fst (provider X _ (provider_state w))) as [j|err];
          [|destruct err]; rewrite Hsent;
          repeat (apply Forall_cons_2; [repeat split|]); apply Forall_nil_2.
      * exists [], removed.
        rewrite (update_timeslot_event_no_client X timeslot w e Hc).
        split; [apply build_timeslot_event_id_eq|].
        split; [symmetry; apply app_nil_r|].
        split; [exact Hdel|]. split; [constructor|exact Hrem].
  - intros timeslot w client event_id calendar Hcount Hc Hid Hcal Hev Htr first.
    assert (Timeslot.reservation_set timeslot <> []) as Hr
      by (intros E; rewrite E in Hcount; simpl in Hcount; lia).
    rewrite build_timeslot_event_id_eq in Hid. apply Return_inj in Hid.
    fold (derived_id timeslot) in Hid. subst event_id.
    pose proof (update_timeslot_event_run InMemory.externals timeslot w client
                  Hr Hc) as Hrun.
    cbv zeta in Hrun.
    cbn [provider InMemory.externals InMemory.externals_with] in Hrun.
    unfold calendar_of in Hrun. fold calendar in Hrun.
    rewrite (step_patch_missing client calendar (derived_id timeslot) _ _ Hev)
      in Hrun.
    cbn [fst snd answered provider_state] in Hrun.
    destruct (step_insert_fresh client calendar (derived_id timeslot)
                (sync_body InMemory.externals timeslot) (provider_state w)
                Hcal Hev Htr eq_refl)
      as ((created & Hcreated) & Hcal' & Hev').
    rewrite Hcreated in Hrun. cbn [unit_outcome] in Hrun.
    set (st2 := snd (InMemory.step _ (provider_state w))) in *.
    assert (db (snd first) = db w /\ provider_state (snd first) = st2
            /\ executed (snd first)
               = executed w ++
                 [(events_patch client (JStr calendar)
                     (JStr (derived_id timeslot)) 1
                     (sync_body InMemory.externals timeslot),
                   Raise (HttpError 404));
                  (events_insert client (JStr calendar) 1
                     (sync_body InMemory.externals timeslot),
                   Return created)])
      as (Hdb & Hst & Hlog).
    { subst first. rewrite Hrun.
      cbn [snd db provider_state executed answered].
      rewrite <- app_assoc. auto. }
    assert (fst (build_calendar_client (owner_of timeslot) (snd first))
            = Return client) as Hc'.
    { rewrite <- Hc. apply build_calendar_client_db. exact Hdb. }
    split; [|split].
    + eexists _, _, created. split; [exact Hlog|]. split; reflexivity.
    + rewrite (update_timeslot_event_run InMemory.externals timeslot
                 (snd first) client Hr Hc').
      cbv zeta. cbn [provider InMemory.externals InMemory.externals_with].
      unfold calendar_of. fold calendar. rewrite Hst.
      destruct (step_patch_present client calendar (derived_id timeslot)
                  (sync_body InMemory.externals timeslot) st2 Hcal' Hev')
        as (patched & Hpatched).
      rewrite Hpatched. eexists _, patched. split; reflexivity.
    + rewrite (delete_timeslot_event_run InMemory.externals timeslot
                 (snd first) client Hc').
      cbn [provider InMemory.externals InMemory.externals_with].
      unfold calendar_of. fold calendar. rewrite Hst.
      rewrite (step_delete_present client calendar (derived_id timeslot) st2
                 Hcal' Hev').
      eexists. split; reflexivity.
Qed.

Lemma sent_bodies_carry_derived_id_witness :
  let first :=
    update_timeslot_event InMemory.externals (Sample.timeslot [Sample.bob])
      Sample.world in
  exists r,
    executed (snd (delete_timeslot_event InMemory.externals
                     (Sample.timeslot [Sample.bob]) (snd first)))
    = executed (snd first) ++ [(r, Return JNull)]
    /\ is_event_delete (request_call r) = true.
Proof.
  apply (proj2 sent_bodies_carry_derived_id (Sample.timeslot [Sample.bob])
           Sample.world Sample.client
           "6391ce73031e61bb257aca03be8a7c96a46f0047").
  - simpl. lia.
  - reflexivity.
  - vm_compute. reflexivity.
  - vm_compute. reflexivity.
  - reflexivity.
  - vm_compute. intros H. discriminate H.
Defined.

(** * Further properties of the module *)

Section Hashify.

Lemma is_ascii_false_iff (s : string) :
  PyStr.is_ascii s = false
  <-> exists c, In c (list_ascii_of_string s) /\ 128 <= PyStr.ord c.
Proof.
  induction s as [|c s IH]; simpl.
  - split; [discriminate | intros (c & [] & _)].
  - rewrite andb_false_iff, IH. unfold PyStr.is_ascii_char. split.
    + intros [H|(c' & Hin & Hc')].
      * exists c. split; [left; reflexivity | lia].
      * exists c'. auto.
    + intros (c' & [<-|Hin] & Hc'); [left; lia | right; eauto].
Qed.

Lemma is_ascii_true_iff (s : string) :
  PyStr.is_ascii s = true
  <-> forall c, In c (list_ascii_of_string s) -> PyStr.ord c < 128.
Proof.
  split.
  - intros Ha c Hin.
    destruct (Z_lt_le_dec (PyStr.ord c) 128) as [|Hge]; [assumption|].
    assert (PyStr.is_ascii s = false) as Hf
      by (apply is_ascii_false_iff; eauto).
    congruence.
  - intros Hall. destruct (PyStr.is_ascii s) eqn:Ha; [reflexivity|].
    apply is_ascii_false_iff in Ha as (c & Hin & Hc).
    specialize (Hall c Hin). lia.
Qed.

Lemma hashify_ascii (s : string) :
  PyStr.is_ascii s = true ->
  hashify s = Return (SHA1.hexdigest (SHA1.sha1 (PyStr.to_bytes s))).
Proof.
  intros Ha. unfold hashify, PyStr.encode_ascii. rewrite Ha, lower_hexdigest.
  reflexivity.
Qed.

Lemma hex_char_is_base32hex (c : ascii) :
  PyStr.is_lower_hex_char c = true -> is_base32hex_char c = true.
Proof.
  unfold PyStr.is_lower_hex_char, is_base32hex_char.
  intros [H|H]%orb_true_iff; apply andb_true_iff in H; apply orb_true_iff;
    [left|right]; apply andb_true_iff; lia.
Qed.

End Hashify.

(** X1.  [hashify] raises [UnicodeEncodeError] exactly on the strings that
    hold a character outside ASCII (a byte of 128 or more); on every other
    string it returns the hexadecimal digest as [hexdigest] gives it, the
    call of [lower] changing nothing. *)
Theorem hashify_raises_exactly_on_non_ascii :
  forall s : string,
    (hashify s = Raise UnicodeEncodeError
     <-> exists c, In c (list_ascii_of_string s) /\ 128 <= PyStr.ord c)
    /\ ((forall c, In c (list_ascii_of_string s) -> PyStr.ord c < 128) ->
        hashify s = Return (SHA1.hexdigest (SHA1.sha1 (PyStr.to_bytes s)))).
Proof.
  intros s. split.
  - rewrite <- is_ascii_false_iff. split.
    + intros H. destruct (PyStr.is_ascii s) eqn:Ha; [|reflexivity].
      rewrite (hashify_ascii s Ha) in H. discriminate H.
    + intros Ha. unfold hashify, PyStr.encode_ascii. rewrite Ha. reflexivity.
  - intros Hall. apply hashify_ascii, is_ascii_true_iff, Hall.
Qed.

Lemma hashify_raises_exactly_on_non_ascii_witness :
  hashify "abc" = Return (SHA1.hexdigest (SHA1.sha1 (PyStr.to_bytes "abc")))
  /\ hashify "Yggdrasil 🐭" = Raise UnicodeEncodeError.
Proof.
  split.
  - apply (proj2 (hashify_raises_exactly_on_non_ascii "abc")).
    intros c [<-|[<-|[<-|[]]]]; vm_compute; reflexivity.
  - apply (proj1 (hashify_raises_exactly_on_non_ascii "Yggdrasil 🐭")).
    exists "240"%char. split; [|vm_compute; discriminate].
    vm_compute. tauto.
Defined.

(** X2.  Whatever [hashify] returns, and so every identifier that
    [build_timeslot_event_id] derives, keeps to the provider's rule for
    event ids: between 5 and 1024 characters, all of them base32hex (digits
    and the letters a to v). *)
Theorem event_id_is_base32hex :
  (forall s h : string,
     hashify s = Return h ->
     (5 <= String.length h <= 1024)%nat
     /\ PyStr.all_chars is_base32hex_char h = true)
  /\ (forall timeslot : Timeslot.t,
        exists event_id,
          build_timeslot_event_id timeslot = Return event_id
          /\ (5 <= String.length event_id <= 1024)%nat
          /\ PyStr.all_chars is_base32hex_char event_id = true).
Proof.
  assert (forall st, (5 <= String.length (SHA1.hexdigest st) <= 1024)%nat
                     /\ PyStr.all_chars is_base32hex_char (SHA1.hexdigest st)
                        = true) as Hdigest.
  { intros st. rewrite hexdigest_length. split; [lia|].
    apply (all_chars_impl _ _ _ hex_char_is_base32hex), hexdigest_lower_hex. }
  split.
  - intros s h. unfold hashify.
    destruct (PyStr.encode_ascii s) as [bytes|]; [|discriminate].
    intros E%Return_inj. subst h. rewrite lower_hexdigest. apply Hdigest.
  - intros timeslot. eexists. split; [apply build_timeslot_event_id_eq|].
    rewrite lower_hexdigest. apply Hdigest.
Qed.

Lemma event_id_is_base32hex_witness :
  (5 <= String.length "a9993e364706816aba3e25717850c26c9cd0d89d" <= 1024)%nat
  /\ PyStr.all_chars is_base32hex_char
       "a9993e364706816aba3e25717850c26c9cd0d89d" = true.
Proof.
  apply (proj1 event_id_is_base32hex "abc").
  vm_compute. reflexivity.
Defined.

Section Credentials.

Lemma objects_get_return {A} (rows : list A) (row : A) :
  objects_get rows = Return row -> rows = [row].
Proof.
  destruct rows as [|r [|r' rest]]; intros H; try discriminate H.
  apply Return_inj in H. subst r. reflexivity.
Qed.

Lemma filter_nothing {A} (P : A -> Prop) `{!forall x, Decision (P x)}
    (l : list A) :
  (forall x, x ∈ l -> ~ P x) -> filter P l = [].
Proof.
  induction l as [|x l IH]; intros Hl; [reflexivity|].
  rewrite filter_cons_False by apply Hl, list_elem_of_here.
  apply IH. intros y Hy. apply Hl, list_elem_of_further, Hy.
Qed.

Lemma filter_single {A} (P : A -> Prop) `{!forall x, Decision (P x)}
    (l : list A) (x : A) :
  filter P l = [x] -> x ∈ l /\ P x /\ forall y, y ∈ l -> P y -> y = x.
Proof.
  intros Hl.
  assert (forall y, y ∈ filter P l <-> y = x) as Hx
    by (intros y; rewrite Hl; apply list_elem_of_singleton).
  assert (x ∈ filter P l) as Hin by (apply Hx; reflexivity).
  apply list_elem_of_filter in Hin as [Hp Hin].
  split; [exact Hin|]. split; [exact Hp|].
  intros y Hy Hpy. apply Hx, list_elem_of_filter. auto.
Qed.

Lemma same_user_google (user : User) (t : SocialToken) :
  Is_true (same_user (account_user t) user
           && String.eqb (account_provider t) "google")
  <-> user_pk (account_user t) = user_pk user
      /\ account_provider t = "google".
Proof.
  rewrite andb_True, !Is_true_true. unfold same_user.
  rewrite Z.eqb_eq, String.eqb_eq. reflexivity.
Qed.

Lemma is_google (a : SocialApp) :
  Is_true (String.eqb (provider_name a) "google")
  <-> provider_name a = "google".
Proof. rewrite Is_true_true. apply String.eqb_eq. Qed.

End Credentials.

(** X3.  A client that [build_calendar_client] returns for a user carries
    the access token and the refresh token of a stored token of that very
    user for the provider google, the one and only such token, and the
    client id and secret of the one app stored for google; the token
    endpoint is Google's.  Tokens of other users or providers are never
    used. *)
Theorem build_calendar_client_uses_own_token :
  forall (PState : Type) (user : User) (w : World PState) (client : Client),
    fst (build_calendar_client user w) = Return client ->
    exists (t : SocialToken) (a : SocialApp),
      t ∈ social_tokens (db w)
      /\ user_pk (account_user t) = user_pk user
      /\ account_provider t = "google"
      /\ (forall t', t' ∈ social_tokens (db w) ->
            user_pk (account_user t') = user_pk user ->
            account_provider t' = "google" -> t' = t)
      /\ a ∈ social_apps (db w)
      /\ provider_name a = "google"
      /\ client
         = {| service_name := "calendar"; service_version := "v3";
              credentials :=
                {| cred_token := token t;
                   cred_refresh_token := token_secret t;
                   cred_token_uri := "https://oauth2.googleapis.com/token";
                   cred_client_id := client_id a;
                   cred_client_secret := secret a |} |}.
Proof.
  intros PState user w client. unfold build_calendar_client. cbn [fst].
  destruct (objects_get (filter _ (social_tokens (db w))))
    as [t|e] eqn:Ht; cbn [obind]; [|discriminate].
  destruct (objects_get (filter _ (social_apps (db w))))
    as [a|e] eqn:Ha; cbn [obind]; [|discriminate].
  intros E%Return_inj. subst client.
  apply objects_get_return, filter_single in Ht as (Hint & Hmine & Honly).
  apply objects_get_return, filter_single in Ha as (Hina & Hgoogle & _).
  apply same_user_google in Hmine as [Hu Hp]. apply is_google in Hgoogle.
  exists t, a. repeat (split; [assumption|]). split; [|auto].
  intros t' Hin' Hu' Hp'. apply Honly; [exact Hin'|].
  apply same_user_google. auto.
Qed.

Lemma build_calendar_client_uses_own_token_witness :
  exists (t : SocialToken) (a : SocialApp),
    t ∈ social_tokens Sample.database
    /\ a ∈ social_apps Sample.database
    /\ cred_token (credentials Sample.client) = token t
    /\ cred_client_secret (credentials Sample.client) = secret a.
Proof.
  destruct (build_calendar_client_uses_own_token _ Sample.alice Sample.world
              Sample.client eq_refl)
    as (t & a & Ht & _ & _ & _ & Ha & _ & E).
  exists t, a. split; [exact Ht|]. split; [exact Ha|].
  rewrite E. split; reflexivity.
Defined.

(** X4.  [build_calendar_client] raises [DoesNotExist] for a user who has no
    token stored for google, whatever else is stored, and also when that
    token is there and no app is stored for google; with two tokens of the
    user for google it raises [MultipleObjectsReturned].  It looks at the
    credential store only and leaves the world as it is. *)
Theorem build_calendar_client_missing_account :
  forall (PState : Type) (user : User) (w : World PState),
    ((forall t, t ∈ social_tokens (db w) ->
        user_pk (account_user t) = user_pk user ->
        account_provider t <> "google") ->
     build_calendar_client user w = (Raise DoesNotExist, w))
    /\ (forall client,
          fst (build_calendar_client user w) = Return client ->
          forall apps,
            (forall a, a ∈ apps -> provider_name a <> "google") ->
            build_calendar_client user
              {| db := {| social_tokens := social_tokens (db w);
                          social_apps := apps |};
                 provider_state := provider_state w; executed := executed w;
                 clock_reads := clock_reads w; uuid_draws := uuid_draws w |}
            = (Raise DoesNotExist,
               {| db := {| social_tokens := social_tokens (db w);
                           social_apps := apps |};
                  provider_state := provider_state w; executed := executed w;
                  clock_reads := clock_reads w; uuid_draws := uuid_draws w |}))
    /\ (forall client t,
          fst (build_calendar_client user w) = Return client ->
          user_pk (account_user t) = user_pk user ->
          account_provider t = "google" ->
          fst (build_calendar_client user
                 {| db := {| social_tokens := t :: social_tokens (db w);
                             social_apps := social_apps (db w) |};
                    provider_state := provider_state w;
                    executed := executed w;
                    clock_reads := clock_reads w;
                    uuid_draws := uuid_draws w |})
          = Raise MultipleObjectsReturned).
Proof.
  intros PState user w. split; [|split].
  - intros Hnone. unfold build_calendar_client.
    rewrite filter_nothing; [reflexivity|].
    intros t Hin [Hu Hp]%same_user_google. exact (Hnone t Hin Hu Hp).
  - intros client Hc apps Hnone. unfold build_calendar_client in *.
    cbn [fst db social_tokens social_apps] in *.
    destruct (objects_get (filter _ (social_tokens (db w))))
      as [t|e]; cbn [obind] in *; [|discriminate].
    rewrite (filter_nothing _ apps); [reflexivity|].
    intros a Hin Hg%is_google. exact (Hnone a Hin Hg).
  - intros client t Hc Hu Hp. unfold build_calendar_client in *.
    cbn [fst db social_tokens social_apps] in *.
    destruct (objects_get (filter _ (social_tokens (db w))))
      as [t0|e] eqn:Ht; cbn [obind] in Hc; [|discriminate].
    apply objects_get_return in Ht.
    rewrite filter_cons_True by (apply same_user_google; auto).
    rewrite Ht. reflexivity.
Qed.

Lemma build_calendar_client_missing_account_witness :
  build_calendar_client Sample.alice Faulty.world_unlinked
  = (Raise DoesNotExist, Faulty.world_unlinked)
  /\ fst (build_calendar_client Sample.alice
            {| db := {| social_tokens := social_tokens Sample.database;
                        social_apps := [] |};
               provider_state := Sample.blank; executed := [];
               clock_reads := 0; uuid_draws := 0 |})
     = Raise DoesNotExist
  /\ fst (build_calendar_client Sample.alice
            {| db := {| social_tokens :=
                          {| account_user := Sample.alice;
                             account_provider := "google";
                             token := "second"; token_secret := "second" |}
                          :: social_tokens Sample.database;
                        social_apps := social_apps Sample.database |};
               provider_state := Sample.blank; executed := [];
               clock_reads := 0; uuid_draws := 0 |})
     = Raise MultipleObjectsReturned.
Proof.
  pose proof (build_calendar_client_missing_account _ Sample.alice
                Faulty.world_unlinked) as (Hnone & _ & _).
  pose proof (build_calendar_client_missing_account _ Sample.alice
                Sample.world) as (_ & Happ & Htwo).
  split; [|split].
  - apply Hnone. intros t Hin. apply elem_of_nil in Hin. destruct Hin.
  - refine (f_equal fst (Happ Sample.client eq_refl [] _)).
    intros a Hin. apply elem_of_nil in Hin. destruct Hin.
  - apply (Htwo Sample.client); reflexivity.
Defined.

(** X5.  When no client can be built for the owner, each of the four
    operations raises the very exception of the lookup and leaves the world
    exactly as it was: no request is executed, the clock is not read and no
    UUID is drawn. *)
Theorem operations_raise_without_client :
  forall (PState : Type) (X : Externals PState) (e : Exn),
    (forall (schedule : Schedule.t) (w : World PState),
       fst (build_calendar_client (Schedule.owner schedule) w) = Raise e ->
       create_calendar_for_schedule X schedule w = (Raise e, w)
       /\ delete_calendar_for_schedule schedule w = (Raise e, w))
    /\ (forall (timeslot : Timeslot.t) (w : World PState),
          fst (build_calendar_client
                 (Schedule.owner (Timeslot.schedule timeslot)) w) = Raise e ->
          update_timeslot_event X timeslot w = (Raise e, w)
          /\ delete_timeslot_event X timeslot w = (Raise e, w)).
Proof.
  intros PState X e. split.
  - intros schedule w Hc. split.
    + unfold create_calendar_for_schedule, bind.
      rewrite (build_calendar_client_fail _ _ _ Hc). reflexivity.
    + unfold delete_calendar_for_schedule, bind.
      rewrite (build_calendar_client_fail _ _ _ Hc). reflexivity.
  - intros timeslot w Hc. split.
    + apply update_timeslot_event_no_client, Hc.
    + apply delete_timeslot_event_no_client, Hc.
Qed.

Lemma operations_raise_without_client_witness :
  create_calendar_for_schedule InMemory.externals Sample.schedule
    Faulty.world_unlinked = (Raise DoesNotExist, Faulty.world_unlinked)
  /\ update_timeslot_event InMemory.externals (Sample.timeslot [Sample.bob])
       Faulty.world_unlinked = (Raise DoesNotExist, Faulty.world_unlinked).
Proof.
  destruct (operations_raise_without_client _ InMemory.externals DoesNotExist)
    as [Hschedule Htimeslot].
  split.
  - apply (Hschedule Sample.schedule Faulty.world_unlinked). reflexivity.
  - apply (Htimeslot (Sample.timeslot [Sample.bob]) Faulty.world_unlinked).
    reflexivity.
Defined.

(** X6.  A sync of a timeslot with reservations whose patch is not answered
    with an [HttpError] executes that one request and nothing else: it
    returns normally when the patch succeeded, and an exception of any other
    kind (the provider could not be reached, say) reaches the caller
    without an insert being tried. *)
Theorem update_timeslot_event_single_patch :
  forall (PState : Type) (X : Externals PState) (timeslot : Timeslot.t)
         (w : World PState) (client : Client) (event_id : string),
    0 < Z.of_nat (length (Timeslot.reservation_set timeslot)) ->
    fst (build_calendar_client
           (Schedule.owner (Timeslot.schedule timeslot)) w) = Return client ->
    build_timeslot_event_id timeslot = Return event_id ->
    let patch :=
      events_patch client
        (JStr (Schedule.calendar_id (Timeslot.schedule timeslot)))
        (JStr event_id) 1 (sync_body X timeslot) in
    let answer := fst (provider X patch (provider_state w)) in
    (forall status, answer <> Raise (HttpError status)) ->
    let run := update_timeslot_event X timeslot w in
    fst run = unit_outcome answer
    /\ executed (snd run) = executed w ++ [(patch, answer)]
    /\ provider_state (snd run) = snd (provider X patch (provider_state w)).
Proof.
  intros PState X timeslot w client event_id Hcount Hc Hid patch answer
         Hother run.
  assert (Timeslot.reservation_set timeslot <> []) as Hr
    by (intros E; rewrite E in Hcount; simpl in Hcount; lia).
  rewrite build_timeslot_event_id_eq in Hid. apply Return_inj in Hid.
  fold (derived_id timeslot) in Hid. subst event_id run.
  rewrite (update_timeslot_event_run X timeslot w client Hr Hc).
  cbv zeta. unfold calendar_of. fold patch. fold answer.
  destruct answer as [j|err] eqn:Ha; [auto|].
  destruct err; try (cbn [fst snd answered executed provider_state]; auto).
  exfalso. eapply Hother. reflexivity.
Qed.

Lemma update_timeslot_event_single_patch_witness :
  fst (update_timeslot_event (InMemory.externals_with Faulty.offline)
         (Sample.timeslot [Sample.bob]) Sample.world)
  = Raise (TransportError "connection refused").
Proof.
  apply (update_timeslot_event_single_patch _
           (InMemory.externals_with Faulty.offline)
           (Sample.timeslot [Sample.bob]) Sample.world Sample.client
           "6391ce73031e61bb257aca03be8a7c96a46f0047").
  - simpl. lia.
  - reflexivity.
  - vm_compute. reflexivity.
  - intros status. discriminate.
Defined.

(** X7.  When the patch is answered not-found, the sync executes a second
    request, the insert of the same body into the same calendar, and what
    the caller gets is the outcome of that insert: an error of the insert
    is not caught. *)
Theorem update_timeslot_event_fallback_outcome :
  forall (PState : Type) (X : Externals PState) (timeslot : Timeslot.t)
         (w : World PState) (client : Client) (event_id : string)
         (p1 : PState),
    0 < Z.of_nat (length (Timeslot.reservation_set timeslot)) ->
    fst (build_calendar_client
           (Schedule.owner (Timeslot.schedule timeslot)) w) = Return client ->
    build_timeslot_event_id timeslot = Return event_id ->
    let calendar := JStr (Schedule.calendar_id (Timeslot.schedule timeslot)) in
    let patch :=
      events_patch client calendar (JStr event_id) 1 (sync_body X timeslot) in
    let insert := events_insert client calendar 1 (sync_body X timeslot) in
    provider X patch (provider_state w) = (Raise (HttpError 404), p1) ->
    let run := update_timeslot_event X timeslot w in
    fst run = unit_outcome (fst (provider X insert p1))
    /\ executed (snd run)
       = executed w ++ [(patch, Raise (HttpError 404));
                        (insert, fst (provider X insert p1))]
    /\ provider_state (snd run) = snd (provider X insert p1).
Proof.
  intros PState X timeslot w client event_id p1 Hcount Hc Hid calendar patch
         insert Hpatch run.
  assert (Timeslot.reservation_set timeslot <> []) as Hr
    by (intros E; rewrite E in Hcount; simpl in Hcount; lia).
  rewrite build_timeslot_event_id_eq in Hid. apply Return_inj in Hid.
  fold (derived_id timeslot) in Hid. subst event_id run.
  rewrite (update_timeslot_event_run X timeslot w client Hr Hc).
  cbv zeta. unfold calendar_of. fold calendar. fold patch. fold insert.
  rewrite Hpatch. cbn [fst snd answered executed provider_state].
  rewrite <- app_assoc. auto.
Qed.

Lemma update_timeslot_event_fallback_outcome_witness :
  fst (update_timeslot_event
         (InMemory.externals_with (Faulty.refusing is_insert 403))
         (Sample.timeslot [Sample.bob]) Sample.world)
  = Raise (HttpError 403).
Proof.
  apply (update_timeslot_event_fallback_outcome _
           (InMemory.externals_with (Faulty.refusing is_insert 403))
           (Sample.timeslot [Sample.bob]) Sample.world Sample.client
           "6391ce73031e61bb257aca03be8a7c96a46f0047" Sample.blank).
  - simpl. lia.
  - reflexivity.
  - vm_compute. reflexivity.
  - vm_compute. reflexivity.
Defined.

(** X8.  The zones attached to the two times of a timeslot play no part in
    a sync: they are dropped before the times are placed in
    America/New_York, so a timeslot whose times carry other zones (or none)
    with the same wall-clock readings is synchronised by the very same
    requests, with the same outcome. *)
Theorem update_timeslot_event_ignores_zones :
  forall (PState : Type) (X : Externals PState) (timeslot : Timeslot.t)
         (zone_from zone_to : option tzinfo) (w : World PState),
    update_timeslot_event X (with_zones timeslot zone_from zone_to) w
    = update_timeslot_event X timeslot w.
Proof.
  intros PState X timeslot zone_from zone_to w.
  unfold update_timeslot_event, delete_timeslot_event,
    build_timeslot_event_id, event_body, with_zones.
  cbn [Timeslot.id Timeslot.schedule Timeslot.time_from Timeslot.time_to
       Timeslot.reservation_set].
  reflexivity.
Qed.

(** ** Where [create_calendar_for_schedule] stops *)

Section CreateCalendar.
Context {PState : Type} (X : Externals PState).
Context (schedule : Schedule.t) (w : World PState).

Local Ltac settle :=
  cbn [clock_reads uuid_draws provider_state executed db fst snd].

Local Ltac finish :=
  settle; split; [reflexivity|]; split; [|reflexivity];
  unfold calls_of; rewrite <- ?app_assoc, map_app; reflexivity.

(** X9.  The placeholder event is put together before anything is asked of
    the provider: when one of the two clock readings cannot be made aware,
    or the end, two hours after the second reading, falls outside the years
    a [datetime] can hold, [create_calendar_for_schedule] raises that
    exception and no calendar has been created: no request was executed. *)
Theorem create_calendar_fails_before_any_request :
  forall (client : Client) (e : Exn),
    fst (build_calendar_client (Schedule.owner schedule) w) = Return client ->
    make_aware X (clock X (clock_reads w)) = Raise e
    \/ (exists start,
          make_aware X (clock X (clock_reads w)) = Return start
          /\ make_aware X (clock X (S (clock_reads w))) = Raise e)
    \/ (exists start aware,
          make_aware X (clock X (clock_reads w)) = Return start
          /\ make_aware X (clock X (S (clock_reads w))) = Return aware
          /\ Datetime.add aware (Datetime.timedelta_hours 2) = Raise e) ->
    let run := create_calendar_for_schedule X schedule w in
    fst run = Raise e
    /\ executed (snd run) = executed w
    /\ provider_state (snd run) = provider_state w.
Proof.
  intros client e Hc Hfail run. subst run.
  unfold create_calendar_for_schedule, bind.
  rewrite (build_calendar_client_ok _ _ _ Hc).
  unfold now, lift, uuid4_str, execute. settle.
  destruct Hfail as [H1|[(start & H1 & H2)|(start & aware & H1 & H2 & H3)]].
  - rewrite H1. settle. auto.
  - rewrite H1. settle. rewrite H2. settle. auto.
  - rewrite H1. settle. rewrite H2, H3. settle. auto.
Qed.

Context (client : Client) (start aware end_ : datetime).
Hypothesis Hclient :
  fst (build_calendar_client (Schedule.owner schedule) w) = Return client.
Hypothesis Hstart : make_aware X (clock X (clock_reads w)) = Return start.
Hypothesis Haware : make_aware X (clock X (S (clock_reads w))) = Return aware.
Hypothesis Hend : Datetime.add aware (Datetime.timedelta_hours 2) = Return end_.

Local Ltac begin :=
  unfold placeholder_body in *;
  unfold create_calendar_for_schedule, bind;
  rewrite (build_calendar_client_ok _ _ _ Hclient);
  unfold now, lift, uuid4_str, execute; settle;
  rewrite Hstart; settle; rewrite Haware, Hend; settle.

(** X10.  When the insert of the calendar fails, whatever the exception,
    [create_calendar_for_schedule] raises it after that single request: no
    placeholder event is inserted. *)
Theorem create_calendar_stops_at_failed_calendar_insert :
  forall (e : Exn) (p1 : PState),
    provider X (calendars_insert client (calendar_body schedule))
      (provider_state w) = (Raise e, p1) ->
    let run := create_calendar_for_schedule X schedule w in
    fst run = Raise e
    /\ calls_of (executed (snd run))
       = calls_of (executed w) ++ [CalendarsInsert (calendar_body schedule)]
    /\ provider_state (snd run) = p1.
Proof.
  intros e p1 Hcal run. subst run. begin. rewrite Hcal. finish.
Qed.

(** X11.  When the provider's answer to the insert of the calendar has no
    "id" (or is no object at all), [create_calendar_for_schedule] raises the
    [KeyError] (or [TypeError]) of the subscript: the request has been
    executed, nothing else follows, and no calendar id is returned. *)
Theorem create_calendar_needs_calendar_id :
  forall (calendar : JSON) (e : Exn) (p1 : PState),
    provider X (calendars_insert client (calendar_body schedule))
      (provider_state w) = (Return calendar, p1) ->
    subscript calendar "id" = Raise e ->
    let run := create_calendar_for_schedule X schedule w in
    fst run = Raise e
    /\ calls_of (executed (snd run))
       = calls_of (executed w) ++ [CalendarsInsert (calendar_body schedule)]
    /\ provider_state (snd run) = p1.
Proof.
  intros calendar e p1 Hcal Hid run. subst run. begin.
  rewrite Hcal. settle. rewrite Hid. finish.
Qed.

(** X12.  When the insert of the placeholder event fails,
    [create_calendar_for_schedule] raises that exception and does nothing
    about the calendar it has just created: the two inserts are all it
    executed, the calendar stays at the provider and its id is not
    returned. *)
Theorem create_calendar_leaves_calendar_on_failed_event_insert :
  forall (calendar calendar_id : JSON) (e : Exn) (p1 p2 : PState),
    provider X (calendars_insert client (calendar_body schedule))
      (provider_state w) = (Return calendar, p1) ->
    subscript calendar "id" = Return calendar_id ->
    provider X
      (events_insert client calendar_id 1 (placeholder_body X w start end_))
      p1 = (Raise e, p2) ->
    let run := create_calendar_for_schedule X schedule w in
    fst run = Raise e
    /\ calls_of (executed (snd run))
       = calls_of (executed w)
         ++ [CalendarsInsert (calendar_body schedule);
             EventsInsert calendar_id 1 (placeholder_body X w start end_)]
    /\ provider_state (snd run) = p2.
Proof.
  intros calendar calendar_id e p1 p2 Hcal Hid Hev run. subst run. begin.
  rewrite Hcal. settle. rewrite Hid, Hev. finish.
Qed.

(** X13.  When the delete of the placeholder event fails,
    [create_calendar_for_schedule] raises that exception, also for the
    statuses 404 and 410 that [delete_timeslot_event] takes for success:
    the calendar exists and its id is not returned. *)
Theorem create_calendar_raises_on_failed_placeholder_delete :
  forall (calendar calendar_id event event_id : JSON) (e : Exn)
         (p1 p2 p3 : PState),
    provider X (calendars_insert client (calendar_body schedule))
      (provider_state w) = (Return calendar, p1) ->
    subscript calendar "id" = Return calendar_id ->
    provider X
      (events_insert client calendar_id 1 (placeholder_body X w start end_))
      p1 = (Return event, p2) ->
    subscript event "id" = Return event_id ->
    provider X (events_delete client calendar_id event_id) p2
    = (Raise e, p3) ->
    let run := create_calendar_for_schedule X schedule w in
    fst run = Raise e
    /\ calls_of (executed (snd run))
       = calls_of (executed w)
         ++ [CalendarsInsert (calendar_body schedule);
             EventsInsert calendar_id 1 (placeholder_body X w start end_);
             EventsDelete calendar_id event_id]
    /\ provider_state (snd run) = p3.
Proof.
  intros calendar calendar_id event event_id e p1 p2 p3
         Hcal Hid Hev Heid Hdel run. subst run. begin.
  rewrite Hcal. settle. rewrite Hid, Hev. settle. rewrite Heid, Hdel. finish.
Qed.

End CreateCalendar.

Lemma create_calendar_fails_before_any_request_witness :
  fst (create_calendar_for_schedule (Faulty.externals_at Faulty.last_hour)
         Sample.schedule Sample.world) = Raise OverflowError
  /\ executed (snd (create_calendar_for_schedule
                      (Faulty.externals_at Faulty.last_hour)
                      Sample.schedule Sample.world)) = [].
Proof.
  destruct (create_calendar_fails_before_any_request
              (Faulty.externals_at Faulty.last_hour) Sample.schedule
              Sample.world Sample.client OverflowError eq_refl)
    as (Hraise & Hlog & _).
  - right. right. eexists _, _.
    split; [vm_compute; reflexivity|].
    split; [vm_compute; reflexivity|].
    vm_compute. reflexivity.
  - split; [exact Hraise | exact Hlog].
Defined.

Lemma create_calendar_stops_at_failed_calendar_insert_witness :
  fst (create_calendar_for_schedule
         (InMemory.externals_with (InMemory.unavailable 503))
         Sample.schedule Sample.world) = Raise (HttpError 503).
Proof.
  eapply (create_calendar_stops_at_failed_calendar_insert
            (InMemory.externals_with (InMemory.unavailable 503))
            Sample.schedule Sample.world Sample.client).
  - reflexivity.
  - vm_compute. reflexivity.
  - vm_compute. reflexivity.
  - vm_compute. reflexivity.
  - vm_compute. reflexivity.
Defined.

Lemma create_calendar_needs_calendar_id_witness :
  fst (create_calendar_for_schedule (InMemory.externals_with Faulty.hollow)
         Sample.schedule Sample.world) = Raise (KeyError "id").
Proof.
  eapply (create_calendar_needs_calendar_id
            (InMemory.externals_with Faulty.hollow)
            Sample.schedule Sample.world Sample.client).
  - reflexivity.
  - vm_compute. reflexivity.
  - vm_compute. reflexivity.
  - vm_compute. reflexivity.
  - vm_compute. reflexivity.
  - vm_compute. reflexivity.
Defined.

Lemma create_calendar_leaves_calendar_on_failed_event_insert_witness :
  let run :=
    create_calendar_for_schedule InMemory.externals Sample.schedule
      (Sample.world_of Faulty.occupied) in
  fst run = Raise (HttpError 409)
  /\ "cal-1" ∈ InMemory.calendars (provider_state (snd run)).
Proof.
  cbv zeta.
  edestruct (create_calendar_leaves_calendar_on_failed_event_insert
               InMemory.externals Sample.schedule
               (Sample.world_of Faulty.occupied) Sample.client)
    as (Hraise & _ & Hstate).
  - reflexivity.
  - vm_compute. reflexivity.
  - vm_compute. reflexivity.
  - vm_compute. reflexivity.
  - vm_compute. reflexivity.
  - vm_compute. reflexivity.
  - vm_compute. reflexivity.
  - split; [exact Hraise|]. rewrite Hstate. vm_compute. reflexivity.
Defined.

Lemma create_calendar_raises_on_failed_placeholder_delete_witness :
  fst (create_calendar_for_schedule
         (InMemory.externals_with (Faulty.refusing is_event_delete 404))
         Sample.schedule Sample.world) = Raise (HttpError 404).
Proof.
  eapply (create_calendar_raises_on_failed_placeholder_delete
            (InMemory.externals_with (Faulty.refusing is_event_delete 404))
            Sample.schedule Sample.world Sample.client).
  - reflexivity.
  - vm_compute. reflexivity.
  - vm_compute. reflexivity.
  - vm_compute. reflexivity.
  - vm_compute. reflexivity.
  - vm_compute. reflexivity.
  - vm_compute. reflexivity.
  - vm_compute. reflexivity.
  - vm_compute. reflexivity.
Defined.

(** ** Syncs against the in-memory provider *)

Section InMemorySync.
Import InMemory.

Lemma step_patch_frame (c : Client) (cal e : string) (v : Z) (body : JSON)
    (st : store) (key : string * string) :
  key <> (cal, e) ->
  events (snd (step (events_patch c (JStr cal) (JStr e) v body) st)) !! key
  = events st !! key
  /\ calendars (snd (step (events_patch c (JStr cal) (JStr e) v body) st))
     = calendars st.
Proof.
  intros Hkey. unfold step. cbn [request_call events_patch].
  destruct (bool_decide (cal ∈ calendars st)); [|auto].
  destruct (events st !! (cal, e)); [|auto].
  cbn [snd with_events events calendars].
  rewrite lookup_insert_ne by congruence. auto.
Qed.

Lemma step_insert_frame (c : Client) (cal e : string) (v : Z) (body : JSON)
    (st : store) (key : string * string) :
  dict_get "id" body = Some (JStr e) -> key <> (cal, e) ->
  events (snd (step (events_insert c (JStr cal) v body) st)) !! key
  = events st !! key
  /\ calendars (snd (step (events_insert c (JStr cal) v body) st))
     = calendars st.
Proof.
  intros Hid Hkey. unfold step. cbn [request_call events_insert].
  rewrite Hid.
  destruct (bool_decide (cal ∈ calendars st)); [|auto].
  destruct (events st !! (cal, e)); [auto|].
  destruct (bool_decide ((cal, e) ∈ trash st)); [auto|].
  cbn [snd bump with_events events calendars].
  rewrite lookup_insert_ne by congruence. auto.
Qed.

Lemma step_delete_frame (c : Client) (cal e : string) (st : store)
    (key : string * string) :
  key <> (cal, e) ->
  events (snd (step (events_delete c (JStr cal) (JStr e)) st)) !! key
  = events st !! key
  /\ calendars (snd (step (events_delete c (JStr cal) (JStr e)) st))
     = calendars st.
Proof.
  intros Hkey. unfold step. cbn [request_call events_delete].
  destruct (bool_decide (cal ∈ calendars st)); [|auto].
  destruct (events st !! (cal, e)).
  - cbn [snd events calendars]. rewrite lookup_delete_ne by congruence. auto.
  - destruct (bool_decide ((cal, e) ∈ trash st)); auto.
Qed.

Lemma step_delete_removes (c : Client) (cal e : string) (st : store) :
  events (snd (step (events_delete c (JStr cal) (JStr e)) st)) !! (cal, e)
  = if bool_decide (cal ∈ calendars st) then None else events st !! (cal, e).
Proof.
  unfold step. cbn [request_call events_delete].
  destruct (bool_decide (cal ∈ calendars st)); [|reflexivity].
  destruct (events st !! (cal, e)) eqn:Hev.
  - cbn [snd events]. apply lookup_delete_eq.
  - destruct (bool_decide ((cal, e) ∈ trash st)); exact Hev.
Qed.

Lemma sync_body_id (timeslot : Timeslot.t) :
  dict_get "id" (sync_body externals timeslot)
  = Some (JStr (derived_id timeslot)).
Proof. reflexivity. Qed.

Lemma derived_id_same_ids (a b : Timeslot.t) :
  Timeslot.id a = Timeslot.id b ->
  Timeslot.schedule a = Timeslot.schedule b ->
  derived_id a = derived_id b.
Proof.
  intros Hi Hs. unfold derived_id, pre_image. rewrite Hi, Hs. reflexivity.
Qed.

(** What a delete of the timeslot's event does to the provider. *)
Lemma delete_timeslot_event_state (timeslot : Timeslot.t) (w : World store) :
  provider_state (snd (delete_timeslot_event externals timeslot w))
  = provider_state w
  \/ exists client,
       provider_state (snd (delete_timeslot_event externals timeslot w))
       = snd (step (events_delete client
                      (JStr (Schedule.calendar_id (Timeslot.schedule timeslot)))
                      (JStr (derived_id timeslot)))
                (provider_state w)).
Proof.
  destruct (fst (build_calendar_client (owner_of timeslot) w))
    as [client|e] eqn:Hc.
  - right. exists client.
    rewrite (delete_timeslot_event_run externals timeslot w client Hc).
    reflexivity.
  - left. rewrite (delete_timeslot_event_no_client externals timeslot w e Hc).
    reflexivity.
Qed.

(** The first sync of a timeslot the provider has never seen. *)
Lemma first_sync (timeslot : Timeslot.t) (w : World store) (client : Client) :
  let calendar := Schedule.calendar_id (Timeslot.schedule timeslot) in
  Timeslot.reservation_set timeslot <> [] ->
  fst (build_calendar_client (owner_of timeslot) w) = Return client ->
  calendar ∈ calendars (provider_state w) ->
  events (provider_state w) !! (calendar, derived_id timeslot) = None ->
  (calendar, derived_id timeslot) ∉ trash (provider_state w) ->
  let run := update_timeslot_event externals timeslot w in
  fst run = Return tt
  /\ db (snd run) = db w
  /\ provider_state (snd run)
     = snd (step (events_insert client (JStr calendar) 1
                    (sync_body externals timeslot)) (provider_state w))
  /\ calendar ∈ calendars (provider_state (snd run))
  /\ is_Some (events (provider_state (snd run))
                !! (calendar, derived_id timeslot)).
Proof.
  intros calendar Hr Hc Hcal Hev Htr run. subst run.
  rewrite (update_timeslot_event_run externals timeslot w client Hr Hc).
  cbv zeta. cbn [provider externals externals_with].
  unfold calendar_of. fold calendar.
  rewrite (step_patch_missing client calendar (derived_id timeslot) _ _ Hev).
  cbn [fst snd answered provider_state db].
  destruct (step_insert_fresh client calendar (derived_id timeslot)
              (sync_body externals timeslot) (provider_state w)
              Hcal Hev Htr (sync_body_id timeslot))
    as ((created & Hcreated) & Hcal' & Hev').
  rewrite Hcreated. cbn [unit_outcome]. auto.
Qed.

End InMemorySync.

(** X14.  Against the in-memory provider, a sync and a delete of a timeslot
    touch nothing but the event at (the schedule's calendar id, the derived
    id): every event stored under another key is there afterwards as it was
    before, and the set of calendars is the same. *)
Theorem sync_touches_only_own_event :
  forall (timeslot : Timeslot.t) (w : World InMemory.store)
         (event_id : string) (key : string * string),
    build_timeslot_event_id timeslot = Return event_id ->
    key <> (Schedule.calendar_id (Timeslot.schedule timeslot), event_id) ->
    let synced :=
      provider_state (snd (update_timeslot_event InMemory.externals timeslot w)) in
    let deleted :=
      provider_state (snd (delete_timeslot_event InMemory.externals timeslot w)) in
    InMemory.events synced !! key = InMemory.events (provider_state w) !! key
    /\ InMemory.calendars synced = InMemory.calendars (provider_state w)
    /\ InMemory.events deleted !! key = InMemory.events (provider_state w) !! key
    /\ InMemory.calendars deleted = InMemory.calendars (provider_state w).
Proof.
  intros timeslot w event_id key Hid Hkey synced deleted.
  rewrite build_timeslot_event_id_eq in Hid. apply Return_inj in Hid.
  fold (derived_id timeslot) in Hid. subst event_id.
  assert (InMemory.events deleted !! key
          = InMemory.events (provider_state w) !! key
          /\ InMemory.calendars deleted = InMemory.calendars (provider_state w))
    as Hdel.
  { subst deleted.
    destruct (delete_timeslot_event_state timeslot w) as [-> | (c & ->)];
      [auto|]. apply step_delete_frame, Hkey. }
  split; [|split]; [| |exact Hdel].
  - subst synced.
    destruct (Timeslot.reservation_set timeslot) as [|res rest] eqn:Hres.
    + rewrite (update_timeslot_event_empty _ timeslot w Hres). apply Hdel.
    + assert (Timeslot.reservation_set timeslot <> []) as Hr by congruence.
      destruct (fst (build_calendar_client (owner_of timeslot) w))
        as [client|e] eqn:Hc.
      * rewrite (update_timeslot_event_run _ timeslot w client Hr Hc).
        cbv zeta.
        cbn [provider InMemory.externals InMemory.externals_with].
        unfold calendar_of.
        pose proof (step_patch_frame client _ _ 1
                      (sync_body InMemory.externals timeslot)
                      (provider_state w) key Hkey) as [Hp _].
        destruct (fst (InMemory.step (events_patch _ _ _ _ _) _))
          as [j|[]]; cbn [snd answered provider_state]; try exact Hp.
        rewrite (proj1 (step_insert_frame client _ _ 1 _ _ key
                          (sync_body_id timeslot) Hkey)).
        exact Hp.
      * rewrite (update_timeslot_event_no_client _ timeslot w e Hc).
        reflexivity.
  - subst synced.
    destruct (Timeslot.reservation_set timeslot) as [|res rest] eqn:Hres.
    + rewrite (update_timeslot_event_empty _ timeslot w Hres). apply Hdel.
    + assert (Timeslot.reservation_set timeslot <> []) as Hr by congruence.
      destruct (fst (build_calendar_client (owner_of timeslot) w))
        as [client|e] eqn:Hc.
      * rewrite (update_timeslot_event_run _ timeslot w client Hr Hc).
        cbv zeta.
        cbn [provider InMemory.externals InMemory.externals_with].
        unfold calendar_of.
        pose proof (step_patch_frame client _ _ 1
                      (sync_body InMemory.externals timeslot)
                      (provider_state w) key Hkey) as [_ Hp].
        destruct (fst (InMemory.step (events_patch _ _ _ _ _) _))
          as [j|[]]; cbn [snd answered provider_state]; try exact Hp.
        rewrite (proj2 (step_insert_frame client _ _ 1 _ _ key
                          (sync_body_id timeslot) Hkey)).
        exact Hp.
      * rewrite (update_timeslot_event_no_client _ timeslot w e Hc).
        reflexivity.
Qed.

Lemma sync_touches_only_own_event_witness :
  is_Some
    (InMemory.events
       (provider_state
          (snd (update_timeslot_event InMemory.externals Faulty.other_timeslot
                  (Sample.world_of Sample.synced))))
       !! ("cal-0", "6391ce73031e61bb257aca03be8a7c96a46f0047")).
Proof.
  edestruct (sync_touches_only_own_event Faulty.other_timeslot
               (Sample.world_of Sample.synced))
    as (Hsame & _).
  - vm_compute. reflexivity.
  - instantiate (1 := ("cal-0", "6391ce73031e61bb257aca03be8a7c96a46f0047")).
    vm_compute. discriminate.
  - rewrite Hsame. vm_compute. eauto.
Defined.

(** X15.  Against the in-memory provider the life of a timeslot's event
    closes: when a timeslot the provider has not seen is synchronised with
    reservations, its event exists afterwards; when the same timeslot is
    synchronised again after its last reservation is gone, the event is
    gone as well.  Both syncs return normally, and every other event is
    left as it was. *)
Theorem sync_then_sync_without_reservations :
  forall (booked vacated : Timeslot.t) (w : World InMemory.store)
         (client : Client) (event_id : string),
    let calendar := Schedule.calendar_id (Timeslot.schedule booked) in
    0 < Z.of_nat (length (Timeslot.reservation_set booked)) ->
    Z.of_nat (length (Timeslot.reservation_set vacated)) = 0 ->
    Timeslot.id vacated = Timeslot.id booked ->
    Timeslot.schedule vacated = Timeslot.schedule booked ->
    fst (build_calendar_client
           (Schedule.owner (Timeslot.schedule booked)) w) = Return client ->
    build_timeslot_event_id booked = Return event_id ->
    calendar ∈ InMemory.calendars (provider_state w) ->
    InMemory.events (provider_state w) !! (calendar, event_id) = None ->
    (calendar, event_id) ∉ InMemory.trash (provider_state w) ->
    let first := update_timeslot_event InMemory.externals booked w in
    let second :=
      update_timeslot_event InMemory.externals vacated (snd first) in
    fst first = Return tt
    /\ is_Some (InMemory.events (provider_state (snd first))
                  !! (calendar, event_id))
    /\ fst second = Return tt
    /\ InMemory.events (provider_state (snd second)) !! (calendar, event_id)
       = None
    /\ forall key,
         key <> (calendar, event_id) ->
         InMemory.events (provider_state (snd second)) !! key
         = InMemory.events (provider_state w) !! key.
Proof.
  intros booked vacated w client event_id calendar Hcount Hzero Hi Hs Hc Hid
         Hcal Hev Htr first second.
  assert (Timeslot.reservation_set booked <> []) as Hr
    by (intros E; rewrite E in Hcount; simpl in Hcount; lia).
  assert (Timeslot.reservation_set vacated = []) as Hr0
    by (destruct (Timeslot.reservation_set vacated); [reflexivity|];
        simpl length in Hzero; lia).
  rewrite build_timeslot_event_id_eq in Hid. apply Return_inj in Hid.
  fold (derived_id booked) in Hid. subst event_id.
  destruct (first_sync booked w client Hr Hc Hcal Hev Htr)
    as (Hfirst & Hdb & Hstate & Hcal1 & Hev1).
  fold first in Hfirst, Hdb, Hstate, Hcal1, Hev1.
  assert (fst (build_calendar_client (owner_of vacated) (snd first))
          = Return client) as Hc1.
  { unfold owner_of. rewrite Hs, <- Hc.
    apply build_calendar_client_db, Hdb. }
  assert (second = delete_timeslot_event InMemory.externals vacated (snd first))
    as Hsecond by (apply update_timeslot_event_empty, Hr0).
  rewrite (delete_timeslot_event_run _ vacated (snd first) client Hc1)
    in Hsecond.
  cbn [provider InMemory.externals InMemory.externals_with] in Hsecond.
  unfold calendar_of in Hsecond.
  rewrite Hs, (derived_id_same_ids vacated booked Hi Hs) in Hsecond.
  fold calendar in Hsecond.
  split; [exact Hfirst|]. split; [exact Hev1|].
  rewrite Hsecond. cbn [fst snd answered provider_state].
  split; [|split].
  - rewrite (step_delete_present client calendar (derived_id booked) _
               Hcal1 Hev1). reflexivity.
  - rewrite step_delete_removes.
    rewrite bool_decide_eq_true_2 by exact Hcal1. reflexivity.
  - intros key Hkey.
    rewrite (proj1 (step_delete_frame client calendar (derived_id booked) _
                      key Hkey)).
    rewrite Hstate.
    apply (step_insert_frame client calendar (derived_id booked) 1 _ _ key
             (sync_body_id booked) Hkey).
Qed.

Lemma sync_then_sync_without_reservations_witness :
  let first :=
    update_timeslot_event InMemory.externals (Sample.timeslot [Sample.bob])
      Sample.world in
  let second :=
    update_timeslot_event InMemory.externals (Sample.timeslot [])
      (snd first) in
  fst second = Return tt
  /\ InMemory.events (provider_state (snd second))
       !! ("cal-0", "6391ce73031e61bb257aca03be8a7c96a46f0047") = None.
Proof.
  cbv zeta.
  destruct (sync_then_sync_without_reservations
              (Sample.timeslot [Sample.bob]) (Sample.timeslot [])
              Sample.world Sample.client
              "6391ce73031e61bb257aca03be8a7c96a46f0047")
    as (_ & _ & Hsecond & Hgone & _).
  - simpl. lia.
  - reflexivity.
  - reflexivity.
  - reflexivity.
  - reflexivity.
  - vm_compute. reflexivity.
  - vm_compute. reflexivity.
  - reflexivity.
  - vm_compute. intros H. discriminate H.
  - split; [exact Hsecond | exact Hgone].
Defined.

(** X16.  A sync of a timeslot without reservations returns normally
    whenever the provider answers the delete with success, with 404 or with
    410: in particular when the timeslot never had an event. *)
Theorem update_without_reservations_and_event_returns :
  forall (PState : Type) (X : Externals PState) (timeslot : Timeslot.t)
         (w : World PState) (client : Client) (event_id : string),
    Z.of_nat (length (Timeslot.reservation_set timeslot)) = 0 ->
    fst (build_calendar_client
           (Schedule.owner (Timeslot.schedule timeslot)) w) = Return client ->
    build_timeslot_event_id timeslot = Return event_id ->
    let answer :=
      fst (provider X
             (events_delete client
                (JStr (Schedule.calendar_id (Timeslot.schedule timeslot)))
                (JStr event_id))
             (provider_state w)) in
    (exists j, answer = Return j)
    \/ answer = Raise (HttpError 404) \/ answer = Raise (HttpError 410) ->
    fst (update_timeslot_event X timeslot w) = Return tt.
Proof.
  intros PState X timeslot w client event_id Hzero Hc Hid answer Hanswer.
  assert (Timeslot.reservation_set timeslot = []) as Hr
    by (destruct (Timeslot.reservation_set timeslot); [reflexivity|];
        simpl length in Hzero; lia).
  rewrite build_timeslot_event_id_eq in Hid. apply Return_inj in Hid.
  fold (derived_id timeslot) in Hid. subst event_id.
  rewrite (update_timeslot_event_empty X timeslot w Hr).
  rewrite (delete_timeslot_event_run X timeslot w client Hc).
  unfold calendar_of. fold answer. cbn [fst].
  destruct Hanswer as [(j & ->)|[-> | ->]]; reflexivity.
Qed.

Lemma update_without_reservations_and_event_returns_witness :
  fst (update_timeslot_event InMemory.externals (Sample.timeslot [])
         Sample.world) = Return tt.
Proof.
  apply (update_without_reservations_and_event_returns _ InMemory.externals
           (Sample.timeslot []) Sample.world Sample.client
           "6391ce73031e61bb257aca03be8a7c96a46f0047").
  - reflexivity.
  - reflexivity.
  - vm_compute. reflexivity.
  - right. left. vm_compute. reflexivity.
Defined.
